(** * DateTimeSkill: location extraction, timezone resolution, leap years

    A shallow embedding of the algorithmic core of [src/__init__.py]
    (class [DateTimeSkill]): the leap-year helpers, [_extract_location],
    the deprecated tiered resolver [get_timezone] and the geolocation
    based [_get_timezone].

    Conventions of the embedding
    - Python [str] is [string] over 7-bit characters; [int] is [Z].
    - The similarity score returned by [fuzzy_match] is a quotient of two
      small integers; it is kept as an exact rational ([Q]).  The two
      thresholds [0.8] and [0.3] are [8#10] and [3#10].
    - Exceptions and observable calls (prompts, notifications, calls to
      the geolocation service, calls to [fuzzy_match]) are threaded
      through the small monad [M] below: a computation yields the list
      of events it performed and either a value or a raised exception. *)

From Stdlib Require Import ZArith QArith String Ascii List Bool Lia Lqa.
From stdpp Require Import base gmap strings.
From Equations Require Import Equations.
Import ListNotations.

Local Open Scope Z_scope.

(** ** Python string operations used by the skill *)

Module PyStr.

Definition is_upper (c : ascii) : bool :=
  let n := nat_of_ascii c in (Nat.leb 65 n && Nat.leb n 90)%bool.

Definition is_lower (c : ascii) : bool :=
  let n := nat_of_ascii c in (Nat.leb 97 n && Nat.leb n 122)%bool.

(** [str.isspace] on the 7-bit range. *)
Definition is_space (c : ascii) : bool :=
  let n := nat_of_ascii c in
  ((Nat.leb 9 n && Nat.leb n 13) || (Nat.leb 28 n && Nat.leb n 32))%bool.

Definition lower_ascii (c : ascii) : ascii :=
  if is_upper c then ascii_of_nat (nat_of_ascii c + 32) else c.

(** [s.lower()] *)
Fixpoint lower (s : string) : string :=
  match s with
  | EmptyString => EmptyString
  | String c r => String (lower_ascii c) (lower r)
  end.

(** [s.replace(old, new)] for one-character [old] and [new]. *)
Fixpoint replace (old new : ascii) (s : string) : string :=
  match s with
  | EmptyString => EmptyString
  | String c r => String (if Ascii.eqb c old then new else c) (replace old new r)
  end.

(** [s.split(sep)] for a one-character separator: never the empty list. *)
Fixpoint split (sep : ascii) (s : string) : list string :=
  match s with
  | EmptyString => [EmptyString]
  | String c r =>
      if Ascii.eqb c sep then EmptyString :: split sep r
      else match split sep r with
           | [] => [String c EmptyString]
           | w :: ws => String c w :: ws
           end
  end.

(** [sep.join(parts)] *)
Fixpoint join (sep : string) (parts : list string) : string :=
  match parts with
  | [] => EmptyString
  | [p] => p
  | p :: rest => String.append p (String.append sep (join sep rest))
  end.

Fixpoint lstrip (s : string) : string :=
  match s with
  | EmptyString => EmptyString
  | String c r => if is_space c then lstrip r else s
  end.

Definition reverse (s : string) : string :=
  string_of_list_ascii (rev (list_ascii_of_string s)).

(** [s.strip()] *)
Definition strip (s : string) : string :=
  reverse (lstrip (reverse (lstrip s))).

(** [s.startswith(c)] for a one-character prefix. *)
Definition startswith (c : ascii) (s : string) : bool :=
  match s with
  | EmptyString => false
  | String d _ => Ascii.eqb d c
  end.

(** [re.sub(r"([a-z])([A-Z])", r"\g<1> \g<2>", s)]: matches are found
    left to right and do not overlap; the scan resumes after the upper
    case letter of a match. *)
Fixpoint sub_camel (s : string) : string :=
  match s with
  | String c1 (String c2 r as t) =>
      if (is_lower c1 && is_upper c2)%bool
      then String c1 (String " "%char (String c2 (sub_camel r)))
      else String c1 (sub_camel t)
  | _ => s
  end.

(** [l[i]] for a list of strings, with Python's negative indices; used
    only at indices that the caller has checked against [len(l)]. *)
Definition item (l : list string) (i : Z) : string :=
  nth (Z.to_nat (if i <? 0 then Z.of_nat (length l) + i else i)) l EmptyString.

End PyStr.

(** ** [difflib.SequenceMatcher(None, a, b).ratio()]

    [mycroft.util.parse.fuzzy_match(x, against)] is this ratio.  The
    resolver below takes the scoring function as a parameter of the host;
    this executable rendering of the library algorithm (no junk
    heuristic, as for sequences shorter than 200 elements) is the
    instance used for concrete runs. *)

Module Difflib.

Fixpoint common_prefix (a b : list ascii) : nat :=
  match a, b with
  | x :: a', y :: b' => if Ascii.eqb x y then S (common_prefix a' b') else O
  | _, _ => O
  end.

(** Scan the start positions [j, j+1, ...] of [b] against a fixed start
    [i] of [a]; a block replaces the best one only when strictly longer. *)
Fixpoint scan_b (a_i b_j : list ascii) (i j : nat) (best : nat * nat * nat)
  : nat * nat * nat :=
  match b_j with
  | [] => best
  | _ :: b' =>
      let k := common_prefix a_i b_j in
      let best' := if Nat.ltb (snd best) k then (i, j, k) else best in
      scan_b a_i b' i (S j) best'
  end.

Fixpoint scan_a (a_i b : list ascii) (i : nat) (best : nat * nat * nat)
  : nat * nat * nat :=
  match a_i with
  | [] => best
  | _ :: a' => scan_a a' b (S i) (scan_b a_i b i O best)
  end.

(** [find_longest_match]: the longest common block, the earliest in [a]
    among the longest, the earliest in [b] among those; [(i, j, size)]. *)
Definition find_longest_match (a b : list ascii) : nat * nat * nat :=
  scan_a a b O (O, O, O).

(** Total size of the matching blocks: the longest block, then the same
    to its left and to its right. *)
Fixpoint matches (fuel : nat) (a b : list ascii) : nat :=
  match fuel with
  | O => O
  | S fuel' =>
      let '(i, j, k) := find_longest_match a b in
      if Nat.eqb k 0 then O
      else (k + matches fuel' (firstn i a) (firstn j b)
              + matches fuel' (skipn (i + k) a) (skipn (j + k) b))%nat
  end.

Definition ratio (x against : string) : Q :=
  let a := list_ascii_of_string x in
  let b := list_ascii_of_string against in
  let total := (length a + length b)%nat in
  if Nat.eqb total 0 then 1%Q
  else (Z.of_nat (2 * matches (S (length a)) a b) # Pos.of_nat total)%Q.

End Difflib.

(** ** Exceptions, observable events and the effect monad *)

(** The exception classes the skill's code names or can meet.
    [UnknownTimeZoneError] is [pytz.exceptions.UnknownTimeZoneError],
    which [pytz] declares as a subclass of [KeyError].  [OtherError]
    stands for a class that derives from none of the four above (for
    example a network error of the geolocation client, or [re.error]). *)
Inductive exn : Type :=
| KeyError
| IndexError
| TypeError
| UnknownTimeZoneError
| OtherError (class_name : string).

(** Calls on the host that a user or a test double can observe. *)
Inductive event : Type :=
| FuzzyMatch (x against : string)
| TranslateNamedvalues (name : string)
| AskYesno (prompt zone_name : string)
| SpeakDialog (key : string) (location : option string)
| GetGeolocation (location : string)
| LogInfo (location : string) (geolocation : gmap string string)
| LogDebug (msg : string).

Inductive outcome (A : Type) : Type :=
| Returned (a : A)
| Raised (e : exn).
Arguments Returned {A} a.
Arguments Raised {A} e.

(** A computation: the events performed, in order, and how it ended. *)
Definition M (A : Type) : Type := list event * outcome A.

Definition ret {A : Type} (a : A) : M A := ([], Returned a).

Definition raise {A : Type} (e : exn) : M A := ([], Raised e).

Definition emit (ev : event) : M unit := ([ev], Returned tt).

Definition bind {A B : Type} (m : M A) (f : A -> M B) : M B :=
  match m with
  | (t, Returned a) => let '(t', r) := f a in (t ++ t', r)
  | (t, Raised e) => (t, Raised e)
  end.

#[export] Instance M_ret : MRet M := @ret.
#[export] Instance M_bind : MBind M := fun A B f m => bind m f.

(** [try: body / except: handler]: a bare [except] catches everything. *)
Definition try_except {A : Type} (body : M A) (handler : M A) : M A :=
  match body with
  | (t, Returned a) => (t, Returned a)
  | (t, Raised _) => let '(t', r) := handler in (t ++ t', r)
  end.

(** [try: body / except cls: handler / else: orelse].  Only an exception
    of the [body] that [catches] accepts reaches the [handler]; the
    [orelse] part runs after a [body] that returned and is not guarded. *)
Definition try_except_else {A B : Type} (body : M A) (catches : exn -> bool)
    (handler : M B) (orelse : A -> M B) : M B :=
  match body with
  | (t, Returned a) => let '(t', r) := orelse a in (t ++ t', r)
  | (t, Raised e) =>
      if catches e then let '(t', r) := handler in (t ++ t', r)
      else (t, Raised e)
  end.

(** What [except KeyError] catches: [KeyError] and its subclasses. *)
Definition is_KeyError (e : exn) : bool :=
  match e with
  | KeyError | UnknownTimeZoneError => true
  | _ => false
  end.

Definition is_IndexError (e : exn) : bool :=
  match e with IndexError => true | _ => false end.

Definition is_UnknownTimeZoneError (e : exn) : bool :=
  match e with UnknownTimeZoneError => true | _ => false end.

(** The events of a run and its result. *)
Definition trace {A : Type} (m : M A) : list event := fst m.
Definition result {A : Type} (m : M A) : outcome A := snd m.

Definition is_ask (ev : event) : bool :=
  match ev with AskYesno _ _ => true | _ => false end.

Definition is_fuzzy (ev : event) : bool :=
  match ev with FuzzyMatch _ _ => true | _ => false end.

Definition is_geolocation (ev : event) : bool :=
  match ev with GetGeolocation _ => true | _ => false end.

Definition is_speak (ev : event) : bool :=
  match ev with SpeakDialog _ _ => true | _ => false end.

(** ** The host: what the skill framework and the libraries provide *)

(** A [pytz] timezone object, identified by its zone name. *)
Inductive tzinfo : Type := TzInfo (zone : string).

(** The object returned by [re.search] on a match.  [group("Location")]
    raises [IndexError] when the pattern has no group of that name, and
    returns [None] when the group exists but took no part in the match. *)
Inductive group_lookup : Type :=
| NoSuchGroup
| GroupValue (captured : option string).

Record match_object : Type := { group_Location : group_lookup }.

Record host : Type := {
  (** [self.astral[locale].timezone]; [None] for the [KeyError] of an
      unknown city. *)
  astral : string -> option string;
  (** [pytz.timezone(zone)]; [None] for [UnknownTimeZoneError]. *)
  pytz_zone : string -> option tzinfo;
  (** [pytz.all_timezones], in its iteration order. *)
  all_timezones : list string;
  (** [self.translate_namedvalues(name)]: a dict, in iteration order. *)
  namedvalues : string -> list (string * string);
  (** [mycroft.util.parse.fuzzy_match] *)
  fuzzy : string -> string -> Q;
  (** The user's answer to [self.ask_yesno(prompt, data={"zone_name": say})]. *)
  yesno_answer : string -> string -> option string;
  (** [self.geolocation_api.get_geolocation(location)] *)
  geolocation : string -> outcome (gmap string string);
  (** [self.config_core], a well-formed configuration: nested dicts
      with strings at the leaves. *)
  config_core : gmap string (gmap string (gmap string string));
  (** The records of the [location.rx] resource of the active language,
      [None] when [find_resource] finds no file. *)
  location_rx : option (list string);
  (** [re.search(pattern, utterance)]: the match object or [None]; it
      raises ([re.error]) on a pattern that does not compile. *)
  re_search : string -> string -> outcome (option match_object)
}.

(** ** The skill *)

Definition Qgt_bool (a b : Q) : bool := negb (Qle_bool a b).

(** Python's [max(a, b)]: the first argument unless the second is
    strictly greater. *)
Definition max2 (a b : Q) : Q := if Qgt_bool b a then b else a.

Definition max3 (a b c : Q) : Q := max2 (max2 a b) c.

(** [d[key]] on a dict: [KeyError] when the key is absent. *)
Definition getitem {V : Type} (d : gmap string V) (key : string) : M V :=
  match d !! key with
  | Some v => mret v
  | None => raise KeyError
  end.

Section DateTimeSkill.

Variable h : host.

Definition pytz_timezone (zone : string) : M tzinfo :=
  match pytz_zone h zone with
  | Some tz => mret tz
  | None => raise UnknownTimeZoneError
  end.

Definition astral_timezone (locale : string) : M string :=
  match astral h locale with
  | Some zone => mret zone
  | None => raise KeyError
  end.

Definition translate_namedvalues (name : string) : M (list (string * string)) :=
  _ ← emit (TranslateNamedvalues name); mret (namedvalues h name).

Definition fuzzy_match (x against : string) : M Q :=
  _ ← emit (FuzzyMatch x against); mret (fuzzy h x against).

Definition ask_yesno (prompt zone_name : string) : M (option string) :=
  _ ← emit (AskYesno prompt zone_name); mret (yesno_answer h prompt zone_name).

Definition speak_dialog (key : string) (location : option string) : M unit :=
  emit (SpeakDialog key location).

Definition get_geolocation (location : string) : M (gmap string string) :=
  ([GetGeolocation location], geolocation h location).

(** *** [get_timezone] *)

(** Lines 140-143: the first key of the table that equals the locale up
    to case, with its value. *)
Fixpoint translated_value (locale : string) (timezones : list (string * string))
  : option string :=
  match timezones with
  | [] => None
  | (timezone, value) :: rest =>
      if String.eqb (PyStr.lower locale) (PyStr.lower timezone) then Some value
      else translated_value locale rest
  end.

(** Line 155 *)
Definition normalize_name (name : string) : list string :=
  PyStr.split "/"%char (PyStr.replace "_"%char " "%char (PyStr.lower name)).

(** Lines 155-162: the score [pct] of one identifier.  [split] never
    returns the empty list, so one of the two branches of the source is
    always taken; the last branch below is not reachable. *)
Definition fuzzy_score (target name : string) : M Q :=
  let normalized := normalize_name name in
  if Nat.eqb (length normalized) 1 then
    fuzzy_match (PyStr.item normalized 0) target
  else if Nat.leb 2 (length normalized) then
    pct ← fuzzy_match (PyStr.item normalized 1) target;
    pct2 ← fuzzy_match
             (PyStr.item normalized (-2) +:+ " " +:+ PyStr.item normalized (-1))
             target;
    pct3 ← fuzzy_match
             (PyStr.item normalized (-1) +:+ " " +:+ PyStr.item normalized (-2))
             target;
    mret (max3 pct pct2 pct3)
  else raise (OtherError "UnboundLocalError").

(** Lines 163-164: [if not best or pct >= best[0]: best = (pct, name)] *)
Definition update_best (best : option (Q * string)) (pct : Q) (name : string)
  : option (Q * string) :=
  match best with
  | None => Some (pct, name)
  | Some (b, _) => if Qle_bool b pct then Some (pct, name) else best
  end.

(** Lines 154-164: the loop over [pytz.all_timezones]. *)
Fixpoint fuzzy_loop (target : string) (names : list string)
    (best : option (Q * string)) : M (option (Q * string)) :=
  match names with
  | [] => mret best
  | name :: rest =>
      pct ← fuzzy_score target name;
      fuzzy_loop target rest (update_best best pct name)
  end.

(** Lines 170-174: the speakable form of an identifier. *)
Definition speakable (name : string) : string :=
  let say := PyStr.sub_camel name in
  let say := PyStr.replace "_"%char " "%char say in
  let say := PyStr.split "/"%char say in
  let say := rev say in
  PyStr.join " " say.

(** Lines 165-178: what is done with the best candidate. *)
Definition decide_best (best : option (Q * string)) : M (option tzinfo) :=
  match best with
  | Some (pct, name) =>
      if Qgt_bool pct (8 # 10) then
        tz ← pytz_timezone name; mret (Some tz)
      else if Qgt_bool pct (3 # 10) then
        answer ← ask_yesno "did.you.mean.timezone" (speakable name);
        if decide (answer = Some "yes"%string) then
          tz ← pytz_timezone name; mret (Some tz)
        else mret None
      else mret None
  | None => mret None
  end.

(** Lines 145-178: the fuzzy tier. *)
Definition fuzzy_tier (locale : string) : M (option tzinfo) :=
  let target := PyStr.lower locale in
  best ← fuzzy_loop target (all_timezones h) None;
  decide_best best.

(** Lines 136-143 and what follows them. *)
Definition translated_tier (locale : string) : M (option tzinfo) :=
  timezones ← translate_namedvalues "timezone.value";
  match translated_value locale timezones with
  | Some value =>
      (* assumes translation is correct *)
      tz ← pytz_timezone (PyStr.strip value); mret (Some tz)
  | None => fuzzy_tier locale
  end.

(** Lines 123-178.  Each of the first two [try] blocks returns from the
    function when its body succeeds and passes on any exception. *)
Definition get_timezone (locale : string) : M (option tzinfo) :=
  city ← try_except
           (zone ← astral_timezone locale; tz ← pytz_timezone zone; mret (Some tz))
           (mret None);
  match city with
  | Some tz => mret (Some tz)
  | None =>
      code ← try_except (tz ← pytz_timezone locale; mret (Some tz)) (mret None);
      match code with
      | Some tz => mret (Some tz)
      | None => translated_tier locale
      end
  end.

(** *** [_get_location_patterns] and [_extract_location] *)

(** Lines 458-474 *)
Definition _get_location_patterns : list string :=
  match location_rx h with
  | Some records =>
      map PyStr.strip (filter (fun record => negb (PyStr.startswith "#"%char record)) records)
  | None => []
  end.

(** [search_result.group("Location")] *)
Definition group (m : match_object) : M (option string) :=
  match group_Location m with
  | NoSuchGroup => raise IndexError
  | GroupValue v => mret v
  end.

(** ['Found location in utterance: ' + location], then [self.log.debug]:
    the concatenation of a [str] and [None] is a [TypeError]. *)
Definition log_found (location : option string) : M unit :=
  match location with
  | Some s => emit (LogDebug ("Found location in utterance: " +:+ s))
  | None => raise TypeError
  end.

(** Lines 445-454: the loop; [location] is the variable of the source.
    The call of [re.search] at line 446 is outside the [try]: what it
    raises ends the loop and the function. *)
Fixpoint extract_loop (utterance : string) (patterns : list string)
    (location : option string) : M (option string) :=
  match patterns with
  | [] => mret location
  | regex_pattern :: rest =>
      match re_search h regex_pattern utterance with
      | Raised e => raise e
      | Returned (Some search_result) =>
          try_except_else (group search_result) is_IndexError
            (extract_loop utterance rest location)
            (fun location' => _ ← log_found location'; mret location')
      | Returned None => extract_loop utterance rest location
      end
  end.

(** Lines 442-456 *)
Definition _extract_location (utterance : string) : M (option string) :=
  extract_loop utterance _get_location_patterns None.

(** *** [_get_timezone] *)

(** Lines 476-496 *)
Definition _get_timezone (location : option string) : M (option tzinfo) :=
  tz ← try_except_else
         (match location with
          | None =>
              loc ← getitem (config_core h) "location";
              timezone ← getitem loc "timezone";
              getitem timezone "code"
          | Some name =>
              geo ← get_geolocation name;
              _ ← emit (LogInfo name geo);
              getitem geo "timezone"
          end)
         is_KeyError
         (mret None)
         (fun tz_code =>
            try_except_else (pytz_timezone tz_code) is_UnknownTimeZoneError
              (mret None) (fun tz => mret (Some tz)));
  _ ← match tz with
      | None => speak_dialog "time.tz.not.found" location
      | Some _ => mret tt
      end;
  mret tz.

End DateTimeSkill.

(** ** Leap years *)

(** Lines 634-635.  Python's [%] on [int] with a positive divisor is the
    floored modulus, which is [Z.modulo]. *)
Definition is_leap_year (year : Z) : bool :=
  (year mod 400 =? 0) || ((year mod 4 =? 0) && negb (year mod 100 =? 0)).

(** Number of years from [year + 1] up to the next multiple of 400: the
    quantity that decreases along the recursion of [get_next_leap_year]. *)
Definition years_to_400 (year : Z) : nat := Z.to_nat ((- (year + 1)) mod 400).

(** Case analysis that remembers the equation, so that the recursive call
    below knows that [year + 1] is not a leap year. *)
Definition inspect {A : Type} (a : A) : {b : A | a = b} := exist _ a eq_refl.

(** Lines 627-632.  The source recurses on [year + 1] until a leap year
    is met; the recursion is not structural, so it is defined by
    well-founded recursion on [years_to_400]. *)
Equations? get_next_leap_year (year : Z) : Z by wf (years_to_400 year) lt :=
  get_next_leap_year year with inspect (is_leap_year (year + 1)) => {
    | exist _ true _ := year + 1;
    | exist _ false H := get_next_leap_year (year + 1) }.
Proof.
  assert (Hne : (year + 1) mod 400 <> 0).
  { intros E. unfold is_leap_year in H. rewrite E in H. discriminate H. }
  unfold years_to_400.
  assert (Hm := Z.mod_pos_bound (- (year + 1)) 400 ltac:(lia)).
  assert (Hn := Z.mod_pos_bound (- (year + 1 + 1)) 400 ltac:(lia)).
  assert (Hd := Z.div_mod (- (year + 1)) 400 ltac:(lia)).
  assert (He := Z.div_mod (- (year + 1 + 1)) 400 ltac:(lia)).
  assert (Hy := Z.div_mod (year + 1) 400 ltac:(lia)).
  assert (Hb := Z.mod_pos_bound (year + 1) 400 ltac:(lia)).
  apply Z2Nat.inj_lt; lia.
Qed.

(** The same recursion with an explicit bound on its depth: [None] when
    the bound is exhausted before a leap year is met. *)
Fixpoint get_next_leap_year_depth (depth : nat) (year : Z) : option Z :=
  match depth with
  | O => None
  | S d =>
      let next_year := year + 1 in
      if is_leap_year next_year then Some next_year
      else get_next_leap_year_depth d next_year
  end.

(** ** Concrete hosts for running the skill *)

Module Demo.

(** A few identifiers of [pytz.all_timezones], in its (sorted) order. *)
Definition zones : list string :=
  ["Africa/Abidjan"; "America/Chicago"; "America/Kentucky/Monticello";
   "America/Los_Angeles"; "Australia/Sydney"; "Canada/Eastern"; "Cuba";
   "US/Central"; "US/Eastern"; "UTC"]%string.

Definition known_zone (zone : string) : option tzinfo :=
  if existsb (String.eqb zone) zones then Some (TzInfo zone) else None.

(** The city database knows Dallas. *)
Definition city_db (locale : string) : option string :=
  if String.eqb (PyStr.lower locale) "dallas" then Some "US/Central"%string
  else None.

(** A geolocation service that knows Paris and Atlantis (the latter with
    a timezone code that [pytz] does not know), answers a record without
    a timezone for "nowhere", has no record at all for "void", and is
    unreachable for anything else. *)
Definition geo_service (location : string) : outcome (gmap string string) :=
  if String.eqb location "paris" then
    Returned (<["timezone" := "Australia/Sydney"]> (<["city" := "Paris"]> ∅))
  else if String.eqb location "atlantis" then
    Returned (<["timezone" := "Atlantis/Deep"]> ∅)
  else if String.eqb location "nowhere" then
    Returned (<["city" := "Nowhere"]> ∅)
  else if String.eqb location "void" then Raised KeyError
  else Raised (OtherError "ConnectionError").

Definition config_with_code (code : string)
  : gmap string (gmap string (gmap string string)) :=
  <["location" := <["timezone" := <["code" := code]> ∅]> ∅]> ∅.

(** What [re.search] answers for the patterns and utterances used below.
    The pattern [( in (?P<Location>.+))?$] matches every utterance: at
    " in X" with the group set to X, or else at the end of the utterance
    with the group unset.  The pattern [what time] has no group, and
    the pattern [in (] does not compile. *)
Definition optional_location : string := "( in (?P<Location>.+))?$".

Definition search (pattern utterance : string) : outcome (option match_object) :=
  if String.eqb pattern optional_location then
    if String.eqb utterance "what time is it in paris"
    then Returned (Some {| group_Location := GroupValue (Some "paris"%string) |})
    else Returned (Some {| group_Location := GroupValue None |})
  else if String.eqb pattern "what time" then
    if String.eqb utterance "what is the date" then Returned None
    else Returned (Some {| group_Location := NoSuchGroup |})
  else if String.eqb pattern "in (" then Raised (OtherError "re.error")
  else Returned None.

Definition skill (table : list (string * string)) (answer : option string)
    (code : string) (rx : option (list string)) : host :=
  {| astral := city_db;
     pytz_zone := known_zone;
     all_timezones := zones;
     namedvalues := fun _ => table;
     fuzzy := Difflib.ratio;
     yesno_answer := fun _ _ => answer;
     geolocation := geo_service;
     config_core := config_with_code code;
     location_rx := rx;
     re_search := search |}.

(** The table of the comment at line 138 of the source. *)
Definition china_table : list (string * string) := [("china", "GMT+8")]%string.

Definition plain : host := skill [] None "America/Chicago" None.

(** Two identifiers whose spoken form takes more than a reversal: one
    with an underscore, one with a camel-case boundary. *)
Definition spoken_zones : list string :=
  ["America/North_Dakota/Center"; "Chile/EasterIsland"]%string.

Definition spoken (answer : option string) : host :=
  {| astral := city_db;
     pytz_zone := fun zone =>
       if existsb (String.eqb zone) spoken_zones then Some (TzInfo zone) else None;
     all_timezones := spoken_zones;
     namedvalues := fun _ => [];
     fuzzy := Difflib.ratio;
     yesno_answer := fun _ _ => answer;
     geolocation := geo_service;
     config_core := config_with_code "America/Chicago";
     location_rx := None;
     re_search := search |}.

End Demo.

(** ** Derived descriptions used to state the properties *)

(** The strings that [fuzzy_score] compares with the target, in the
    order of the calls at lines 157-161. *)
Definition comparisons (name : string) : list string :=
  let normalized := normalize_name name in
  if Nat.eqb (length normalized) 1 then [PyStr.item normalized 0]
  else [PyStr.item normalized 1;
        PyStr.item normalized (-2) +:+ " " +:+ PyStr.item normalized (-1);
        PyStr.item normalized (-1) +:+ " " +:+ PyStr.item normalized (-2)].

(** The score that [fuzzy_score] returns. *)
Definition score_of (h : host) (target name : string) : Q :=
  match result (fuzzy_score h target name) with
  | Returned pct => pct
  | Raised _ => 0%Q
  end.

(** The events of one round of the loop. *)
Definition score_events (target name : string) : list event :=
  map (fun x => FuzzyMatch x target) (comparisons name).

(** The specification's reading of the three comparisons: the short name
    is the last component of the normalized identifier and the parent
    region is the component before it. *)
Definition short_name (name : string) : string :=
  PyStr.item (normalize_name name) (-1).

Definition parent_region (name : string) : string :=
  PyStr.item (normalize_name name) (-2).

Definition spec_comparisons (name : string) : list string :=
  if Nat.eqb (length (normalize_name name)) 1 then [short_name name]
  else [short_name name;
        short_name name +:+ " " +:+ parent_region name;
        parent_region name +:+ " " +:+ short_name name].

(** The specification's rendering of a candidate, in its words and
    character by character: the region hierarchy is the parts of the
    identifier between the "/"; in a part, every separator "_" becomes a
    space and a space is put at every camel-case boundary, that is
    between a lower-case letter and an upper-case letter that follows
    it; the rendering is the parts in reverse order, a space between
    them. *)
Fixpoint spec_hierarchy_from (region rest : string) : list string :=
  match rest with
  | EmptyString => [region]
  | String c r =>
      if Ascii.eqb c "/" then region :: spec_hierarchy_from EmptyString r
      else spec_hierarchy_from (region +:+ String c EmptyString) r
  end.

Definition spec_region_hierarchy (name : string) : list string :=
  spec_hierarchy_from EmptyString name.

Fixpoint spec_words (after_lower : bool) (part : string) : string :=
  match part with
  | EmptyString => EmptyString
  | String c rest =>
      let spoken := String (if Ascii.eqb c "_" then " "%char else c)
                      (spec_words (PyStr.is_lower c) rest) in
      if (after_lower && PyStr.is_upper c)%bool then String " "%char spoken
      else spoken
  end.

Definition spec_rendering (name : string) : string :=
  String.concat " " (rev (map (spec_words false) (spec_region_hierarchy name))).

(** [name] is the last element of [names] whose score is maximal. *)
Definition last_maximal (score : string -> Q) (names : list string)
    (name : string) : Prop :=
  exists pre post,
    names = pre ++ name :: post /\
    Forall (fun n => (score n <= score name)%Q) pre /\
    Forall (fun n => (score n < score name)%Q) post.

(** The timezone code of the configuration store, [None] when one of
    the three keys is missing. *)
Definition configured_code (h : host) : option string :=
  match config_core h !! "location"%string with
  | Some loc =>
      match loc !! "timezone"%string with
      | Some timezone => timezone !! "code"%string
      | None => None
      end
  | None => None
  end.

Definition returns {A : Type} (m : M A) : Prop :=
  exists a, result m = Returned a.

(** [pct] is the greatest of the similarities of the strings [xs] with
    the target. *)
Definition maximum_over (h : host) (target : string) (xs : list string)
    (pct : Q) : Prop :=
  Exists (fun x => pct = fuzzy h x target) xs /\
  Forall (fun x => (fuzzy h x target <= pct)%Q) xs.

(** What the first [try] block of [get_timezone] returns, [None] when
    it passes. *)
Definition city_timezone (h : host) (locale : string) : option tzinfo :=
  match astral h locale with
  | Some zone => pytz_zone h zone
  | None => None
  end.

(** The specification's contract for the extraction: the capture of the
    first pattern that both matches and captures the group. *)
Fixpoint first_capture (h : host) (utterance : string) (patterns : list string)
  : option string :=
  match patterns with
  | [] => None
  | regex_pattern :: rest =>
      match re_search h regex_pattern utterance with
      | Returned (Some {| group_Location := GroupValue (Some s) |}) => Some s
      | _ => first_capture h utterance rest
      end
  end.

(** A block [(i, j, k)] lies inside sequences of lengths [la] and [lb]. *)
Definition block_inside (la lb : nat) (blk : nat * nat * nat) : Prop :=
  let '(i, j, k) := blk in (i + k <= la)%nat /\ (j + k <= lb)%nat.

(** ** More of the skill: the leap-year intent, the Mark 1 display and
    the deprecated date helpers *)

(** A naive [datetime.datetime], as [datetime.datetime.now()] returns. *)
Record datetime : Type := {
  dt_year : Z; dt_month : Z; dt_day : Z;
  dt_hour : Z; dt_minute : Z; dt_second : Z; dt_microsecond : Z
}.

(** [a <= b] on naive datetimes: the order of the field tuples. *)
Definition datetime_le (a b : datetime) : bool :=
  let fields d := [dt_year d; dt_month d; dt_day d; dt_hour d; dt_minute d;
                   dt_second d; dt_microsecond d] in
  let fix lex (x y : list Z) : bool :=
    match x, y with
    | u :: x', v :: y' => if u <? v then true else if v <? u then false else lex x' y'
    | _, _ => true
    end in
  lex (fields a) (fields b).

(** Line 437: [datetime.datetime(now.year, 2, 28)], midnight. *)
Definition leap_date (now : datetime) : datetime :=
  {| dt_year := dt_year now; dt_month := 2; dt_day := 28;
     dt_hour := 0; dt_minute := 0; dt_second := 0; dt_microsecond := 0 |}.

(** Lines 434-440: the value of ['year'] in the data of the dialog
    [next.leap.year], for the current time [now]. *)
Definition handle_query_next_leap_year (now : datetime) : Z :=
  let year :=
    if datetime_le now (leap_date now) then dt_year now else dt_year now + 1 in
  get_next_leap_year year.

(** Lines 38-40 *)
Definition MARK_1_NUMBER_WIDTH : Z := 4.
Definition MARK_1_COLON_WIDTH : Z := 2.
Definition MARK_1_DISPLAY_WIDTH : Z := 32.

(** Lines 42-58 *)
Definition mark_1_display_codes : gmap string string :=
  list_to_map
    [(":", "CIICAA"); ("0", "EIMHEEMHAA"); ("1", "EIIEMHAEAA");
     ("2", "EIEHEFMFAA"); ("3", "EIEFEFMHAA"); ("4", "EIMBABMHAA");
     ("5", "EIMFEFEHAA"); ("6", "EIMHEFEHAA"); ("7", "EIEAEAMHAA");
     ("8", "EIMHEFMHAA"); ("9", "EIMBEBMHAA");
     ("9x8_blank", "JIAAAAAAAAAAAAAAAAAA");
     ("7x8_blank", "HIAAAAAAAAAAAAAAAAAA");
     ("alarm_dot", "CIAACA"); ("no_alarm_dot", "CIAAAA")]%string.

(** [self.enclosure.mouth_display(img_code, x=x, refresh=refresh)]; [x]
    is a number: [0] by default, an [int], or the [float] that the
    division of line 574 gives (kept as an exact rational). *)
Inductive enclosure_call : Type :=
| MouthDisplay (img_code : string) (x : Q) (refresh : bool).

(** [mark_1_display_codes[key]] for a key that the source writes out. *)
Definition display_code (key : string) : string :=
  default EmptyString (mark_1_display_codes !! key).

(** Lines 556-568 *)
Definition _clear_mark_1_display (display_time : string) : list enclosure_call :=
  let '(image_code, x_offset) :=
    if Nat.eqb (String.length display_time) 4
    then (display_code "9x8_blank", 22)
    else (display_code "7x8_blank", 24) in
  [MouthDisplay image_code 0 false;
   MouthDisplay image_code (inject_Z x_offset) false].

(** Lines 575-585: the loop over the characters; the calls made and the
    value of [x_offset] after the loop. *)
Fixpoint center_loop (display_time : string) (x_offset : Q)
  : list enclosure_call * Q :=
  match display_time with
  | EmptyString => ([], x_offset)
  | String character rest =>
      match mark_1_display_codes !! String character EmptyString with
      | Some img_code =>
          let x_offset' :=
            if Ascii.eqb character ":"
            then (x_offset + inject_Z MARK_1_COLON_WIDTH)%Q
            else (x_offset + inject_Z MARK_1_NUMBER_WIDTH)%Q in
          let '(calls, final) := center_loop rest x_offset' in
          (MouthDisplay img_code x_offset false :: calls, final)
      | None => center_loop rest x_offset
      end
  end.

(** Lines 572-574: the offset of the first glyph. *)
Definition center_start (display_time : string) : Q :=
  let time_display_width :=
    MARK_1_NUMBER_WIDTH * Z.of_nat (String.length display_time) in
  let time_display_width := time_display_width - MARK_1_COLON_WIDTH in
  (inject_Z (MARK_1_DISPLAY_WIDTH - time_display_width) / 2)%Q.

(** Lines 570-585 *)
Definition _center_time_on_mark_1_display (display_time : string)
  : list enclosure_call :=
  fst (center_loop display_time (center_start display_time)).

(** Lines 587-593; [alarm_is_set] is the property of lines 117-120. *)
Definition _show_mark_1_alarm_indicator (alarm_is_set : bool)
  : list enclosure_call :=
  let upper_left_code :=
    if alarm_is_set then display_code "alarm_dot"
    else display_code "no_alarm_dot" in
  [MouthDisplay upper_left_code 29 false].

(** Lines 551-554 *)
Definition _display_time_on_mark_1 (alarm_is_set : bool) (display_time : string)
  : list enclosure_call :=
  _clear_mark_1_display display_time
    ++ _center_time_on_mark_1_display display_time
    ++ _show_mark_1_alarm_indicator alarm_is_set.

(** An aware [datetime.datetime]: an instant and the timezone it is
    expressed in. *)
Record moment : Type := { instant : Z; moment_tz : tzinfo }.

(** [dt.astimezone(tz)]: the same instant, expressed in [tz]. *)
Definition astimezone (dt : moment) (tz : tzinfo) : moment :=
  {| instant := instant dt; moment_tz := tz |}.

(** What the deprecated date helpers take from the framework and from
    the libraries. *)
Record framework : Type := {
  (** [self.location_timezone]: the code of the configured timezone. *)
  location_timezone : string;
  (** [now_utc()] *)
  now_utc : moment;
  (** [self.config_core.get('date_format')] *)
  date_format : option string;
  (** [self.config_core.get('time_format')] *)
  time_format : option string;
  (** [day.strftime(format)] *)
  strftime : moment -> string -> string;
  (** [nice_time(dt, self.lang, speech=False, use_24hour=...)] *)
  nice_time_display : moment -> bool -> string
}.

Section DateHelpers.

Variable f : framework.
Variable h : host.

(** [self.display_tz], an attribute of the skill. *)
Variable display_tz : option tzinfo.

(** Lines 181-196.  A timezone object and a datetime are true values, so
    [not tz] and [not dtUTC] test for [None]; [if location] also rejects
    the empty string. *)
Definition get_local_datetime (location : option string) (dtUTC : option moment)
  : M (option moment) :=
  let dtUTC := match dtUTC with Some dt => dt | None => now_utc f end in
  tz ← match display_tz with
       | Some tz => mret (Some tz)
       | None => get_timezone h (location_timezone f)
       end;
  tz ← match location with
       | Some name =>
           if String.eqb name EmptyString then mret tz else get_timezone h name
       | None => mret tz
       end;
  match tz with
  | None =>
      _ ← speak_dialog "time.tz.not.found" location;
      mret None
  | Some tz => mret (Some (astimezone dtUTC tz))
  end.

(** [day.strftime(format)] where [day] may be [None]: an
    [AttributeError] then. *)
Definition day_strftime (day : option moment) (format : string) : M string :=
  match day with
  | Some d => mret (strftime f d format)
  | None => raise (OtherError "AttributeError")
  end.

(** [if not day: day = self.get_local_datetime(location)] *)
Definition day_or_local (day : option moment) (location : option string)
  : M (option moment) :=
  match day with
  | Some d => mret (Some d)
  | None => get_local_datetime location None
  end.

(** Lines 199-205 *)
Definition get_display_date (day : option moment) (location : option string)
  : M string :=
  day ← day_or_local day location;
  if decide (date_format f = Some "MDY"%string)
  then day_strftime day "%-m/%-d/%Y"
  else day_strftime day "%Y/%-d/%-m".

(** Lines 108-110 *)
Definition time_format_24_hour : bool :=
  if decide (time_format f = Some "full"%string) then true else false.

(** Lines 208-215 *)
Definition get_display_current_time (location : option string)
    (dtUTC : option moment) : M (option string) :=
  dt ← get_local_datetime location dtUTC;
  match dt with
  | None => mret None
  | Some dt => mret (Some (nice_time_display f dt time_format_24_hour))
  end.

(** Lines 612-615 *)
Definition get_weekday (day : option moment) (location : option string)
  : M string :=
  day ← day_or_local day location; day_strftime day "%A".

(** Lines 617-620 *)
Definition get_month_date (day : option moment) (location : option string)
  : M string :=
  day ← day_or_local day location; day_strftime day "%B %d".

(** Lines 622-625 *)
Definition get_year (day : option moment) (location : option string)
  : M string :=
  day ← day_or_local day location; day_strftime day "%Y".

End DateHelpers.

(** ** Further derived descriptions *)

(** The characters of a string. *)
Definition chars (s : string) : list ascii := list_ascii_of_string s.

(** The number of characters of a display time that have a glyph and
    are not the colon, that are the colon, and that have no glyph. *)
Fixpoint count_glyphs (display_time : string) : Z * Z * Z :=
  match display_time with
  | EmptyString => (0, 0, 0)
  | String c rest =>
      let '(digits, colons, others) := count_glyphs rest in
      match mark_1_display_codes !! String c EmptyString with
      | Some _ => if Ascii.eqb c ":" then (digits, colons + 1, others)
                  else (digits + 1, colons, others)
      | None => (digits, colons, others + 1)
      end
  end.

(** The first pattern that decides the extraction: one on which
    [re.search] raises, or one whose match has the group "Location",
    with what [group("Location")] returns for it. *)
Fixpoint first_declared (h : host) (utterance : string) (patterns : list string)
  : option (outcome (option string)) :=
  match patterns with
  | [] => None
  | regex_pattern :: rest =>
      match re_search h regex_pattern utterance with
      | Raised e => Some (Raised e)
      | Returned (Some {| group_Location := GroupValue v |}) => Some (Returned v)
      | _ => first_declared h utterance rest
      end
  end.

(** A concrete framework. *)
Definition demo_framework (home : string) : framework :=
  {| location_timezone := home;
     now_utc := {| instant := 0; moment_tz := TzInfo "UTC" |};
     date_format := Some "MDY"%string;
     time_format := Some "full"%string;
     strftime := fun d fmt => fmt;
     nice_time_display := fun d use_24hour => "12:00"%string |}.

(** * Properties *)

(** ** Leap years *)

Lemma get_next_leap_year_step (year : Z) :
  get_next_leap_year year =
  if is_leap_year (year + 1) then year + 1 else get_next_leap_year (year + 1).
Proof.
  rewrite get_next_leap_year_equation_1.
  change (is_leap_year (year + 1))
    with (proj1_sig (inspect (is_leap_year (year + 1)))) at 2.
  destruct (inspect (is_leap_year (year + 1))) as [[|] e]; reflexivity.
Qed.

Lemma is_leap_year_period (year : Z) :
  is_leap_year (year mod 400) = is_leap_year year.
Proof.
  unfold is_leap_year.
  rewrite Z.mod_mod by lia.
  rewrite (Z.mod_mod_divide year 400 4) by (exists 100; lia).
  rewrite (Z.mod_mod_divide year 400 100) by (exists 4; lia).
  reflexivity.
Qed.

Lemma is_leap_year_shift (year k : Z) :
  is_leap_year (year + 400 * k) = is_leap_year year.
Proof.
  rewrite <- (is_leap_year_period (year + 400 * k)).
  rewrite <- (is_leap_year_period year).
  f_equal. rewrite Z.mul_comm. apply Z_mod_plus_full.
Qed.

Lemma depth_shift (depth : nat) (year k : Z) :
  get_next_leap_year_depth depth (year + 400 * k) =
  option_map (fun z => z + 400 * k) (get_next_leap_year_depth depth year).
Proof.
  revert year. induction depth as [|d IH]; intros year; simpl; [reflexivity|].
  replace (year + 400 * k + 1) with (year + 1 + 400 * k) by lia.
  rewrite is_leap_year_shift.
  destruct (is_leap_year (year + 1)); [reflexivity|]. apply IH.
Qed.

(** Every residue modulo 400 meets a leap year within eight steps. *)
Lemma depth_8_residues :
  forallb (fun r => match get_next_leap_year_depth 8 (Z.of_nat r) with
                    | Some _ => true
                    | None => false
                    end) (seq 0 400) = true.
Proof. vm_compute. reflexivity. Qed.

Lemma depth_8_enough (year : Z) :
  exists z, get_next_leap_year_depth 8 year = Some z.
Proof.
  assert (Hb := Z.mod_pos_bound year 400 ltac:(lia)).
  assert (Hd := Z.div_mod year 400 ltac:(lia)).
  replace year with (year mod 400 + 400 * (year / 400)) by lia.
  rewrite depth_shift.
  assert (Hr := proj1 (forallb_forall _ _) depth_8_residues
                  (Z.to_nat (year mod 400))).
  cbv beta in Hr. rewrite Z2Nat.id in Hr by lia.
  destruct (get_next_leap_year_depth 8 (year mod 400)) as [z|].
  - eexists. reflexivity.
  - exfalso. assert (false = true); [|discriminate].
    apply Hr. apply in_seq. lia.
Qed.

Lemma depth_sound (depth : nat) :
  forall year z,
    get_next_leap_year_depth depth year = Some z ->
    get_next_leap_year year = z /\
    year < z <= year + Z.of_nat depth /\
    is_leap_year z = true /\
    (forall y, year < y < z -> is_leap_year y = false).
Proof.
  induction depth as [|d IH]; intros year z H; simpl in H; [discriminate|].
  rewrite get_next_leap_year_step.
  destruct (is_leap_year (year + 1)) eqn:E.
  - injection H as <-. repeat split; try lia; try assumption.
  - destruct (IH _ _ H) as (H1 & H2 & H3 & H4).
    repeat split; try lia; try assumption.
    intros y Hy. destruct (Z.eq_dec y (year + 1)) as [->|Hne]; [assumption|].
    apply H4. lia.
Qed.

(** C9: the examples of the specification hold ([is_leap_year] is true
    of 2000 and 2024 and false of 1900, and the leap year after 2024 is
    2028), and in general [is_leap_year y] holds exactly when [y] is
    divisible by 400, or divisible by 4 and not by 100. *)
Theorem leap_year_examples_and_rule :
  is_leap_year 2000 = true /\
  is_leap_year 1900 = false /\
  is_leap_year 2024 = true /\
  get_next_leap_year 2024 = 2028 /\
  forall y : Z,
    is_leap_year y = true <-> ((400 | y) \/ ((4 | y) /\ ~ (100 | y))).
Proof.
  repeat split; try reflexivity.
  - unfold is_leap_year. intros H.
    apply orb_true_iff in H. destruct H as [H|H].
    + left. apply Z.eqb_eq in H. apply Z.mod_divide; [lia|assumption].
    + right. apply andb_true_iff in H. destruct H as [H4 H100].
      apply Z.eqb_eq in H4. apply negb_true_iff, Z.eqb_neq in H100.
      split; [apply Z.mod_divide; [lia|assumption]|].
      intros D. apply H100. apply Z.mod_divide; [lia|assumption].
  - unfold is_leap_year. intros [H|[H4 H100]]; apply orb_true_iff.
    + left. apply Z.eqb_eq. apply Z.mod_divide; [lia|assumption].
    + right. apply andb_true_iff. split.
      * apply Z.eqb_eq. apply Z.mod_divide; [lia|assumption].
      * apply negb_true_iff, Z.eqb_neq. intros E. apply H100.
        apply Z.mod_divide; [lia|assumption].
Qed.

(** C10: for every integer year the recursion of [get_next_leap_year]
    ends, after at most eight calls, and its result is the least leap
    year strictly greater than the input; the input itself is never the
    result. *)
Theorem get_next_leap_year_least :
  forall year : Z,
    get_next_leap_year_depth 8 year = Some (get_next_leap_year year) /\
    year < get_next_leap_year year <= year + 8 /\
    is_leap_year (get_next_leap_year year) = true /\
    (forall y, year < y < get_next_leap_year year -> is_leap_year y = false).
Proof.
  intros year. destruct (depth_8_enough year) as [z Hz].
  destruct (depth_sound _ _ _ Hz) as (H1 & H2 & H3 & H4).
  subst z. repeat split; try assumption; lia.
Qed.

Lemma get_next_leap_year_least_witness :
  get_next_leap_year 2024 <> 2024 /\ is_leap_year 2026 = false.
Proof.
  destruct (get_next_leap_year_least 2024) as (_ & Hlt & _ & Hmin).
  split; [lia|]. apply Hmin. split; [lia|]. vm_compute. reflexivity.
Defined.

(** ** The effect monad *)

Lemma bind_returned {A B : Type} (t : list event) (a : A) (f : A -> M B) :
  (x ← (t, Returned a); f x) = (t ++ trace (f a), result (f a)).
Proof.
  unfold mbind, M_bind, bind, trace, result. destruct (f a); reflexivity.
Qed.

Lemma bind_raised {A B : Type} (t : list event) (e : exn) (f : A -> M B) :
  (x ← ((t, Raised e) : M A); f x) = (t, Raised e).
Proof. reflexivity. Qed.

Lemma M_eta {A : Type} (m : M A) : m = (trace m, result m).
Proof. destruct m; reflexivity. Qed.

Lemma trace_pair {A : Type} (t : list event) (r : outcome A) : trace (t, r) = t.
Proof. reflexivity. Qed.

Lemma result_pair {A : Type} (t : list event) (r : outcome A) : result (t, r) = r.
Proof. reflexivity. Qed.

(** ** Scores *)

Lemma Qgt_bool_true (a b : Q) : Qgt_bool a b = true <-> (b < a)%Q.
Proof.
  unfold Qgt_bool. rewrite negb_true_iff. split.
  - intros H. apply Qnot_le_lt. intros Hle.
    apply Qle_bool_iff in Hle. congruence.
  - intros H. destruct (Qle_bool a b) eqn:E; [|reflexivity].
    apply Qle_bool_iff in E. exfalso. exact (Qlt_not_le _ _ H E).
Qed.

Lemma Qgt_bool_false (a b : Q) : Qgt_bool a b = false <-> (a <= b)%Q.
Proof.
  unfold Qgt_bool. rewrite negb_false_iff. apply Qle_bool_iff.
Qed.

Lemma max2_cases (a b : Q) :
  (max2 a b = a /\ (b <= a)%Q) \/ (max2 a b = b /\ (a < b)%Q).
Proof.
  unfold max2. destruct (Qgt_bool b a) eqn:E.
  - right. split; [reflexivity|]. apply Qgt_bool_true. exact E.
  - left. split; [reflexivity|]. apply Qgt_bool_false. exact E.
Qed.

Lemma max2_upper (a b : Q) : (a <= max2 a b)%Q /\ (b <= max2 a b)%Q.
Proof.
  destruct (max2_cases a b) as [[-> H]|[-> H]]; split;
    auto using Qle_refl, Qlt_le_weak.
Qed.

Lemma max3_upper (a b c : Q) :
  (a <= max3 a b c)%Q /\ (b <= max3 a b c)%Q /\ (c <= max3 a b c)%Q.
Proof.
  unfold max3.
  destruct (max2_upper a b) as [Ha Hb].
  destruct (max2_upper (max2 a b) c) as [Hab Hc].
  repeat split; eauto using Qle_trans.
Qed.

Lemma max3_attained (a b c : Q) :
  max3 a b c = a \/ max3 a b c = b \/ max3 a b c = c.
Proof.
  unfold max3.
  destruct (max2_cases (max2 a b) c) as [[-> _]|[-> _]]; [|auto].
  destruct (max2_cases a b) as [[-> _]|[-> _]]; auto.
Qed.

Lemma split_not_nil (sep : ascii) (s : string) : PyStr.split sep s <> [].
Proof.
  destruct s as [|c r]; simpl; [discriminate|].
  destruct (Ascii.eqb c sep); [discriminate|].
  destruct (PyStr.split sep r); discriminate.
Qed.

Lemma normalize_name_length (name : string) :
  length (normalize_name name) = 1%nat \/ (2 <= length (normalize_name name))%nat.
Proof.
  unfold normalize_name.
  destruct (PyStr.split "/" (PyStr.replace "_" " " (PyStr.lower name))) as [|a [|b l]] eqn:E.
  - exfalso. exact (split_not_nil _ _ E).
  - left. reflexivity.
  - right. simpl. lia.
Qed.

(** One round of the loop performs the comparisons of [comparisons] and
    returns [score_of]. *)
Lemma fuzzy_score_run (h : host) (target name : string) :
  fuzzy_score h target name =
  (score_events target name, Returned (score_of h target name)).
Proof.
  unfold score_of, score_events, comparisons, fuzzy_score.
  destruct (normalize_name_length name) as [H|H].
  - rewrite H. reflexivity.
  - destruct (Nat.eqb (length (normalize_name name)) 1) eqn:E1.
    { apply Nat.eqb_eq in E1. lia. }
    destruct (Nat.leb 2 (length (normalize_name name))) eqn:E2.
    2:{ apply Nat.leb_gt in E2. lia. }
    reflexivity.
Qed.

Lemma score_of_max (h : host) (target name : string) :
  Exists (fun x => score_of h target name = fuzzy h x target) (comparisons name) /\
  Forall (fun x => (fuzzy h x target <= score_of h target name)%Q) (comparisons name).
Proof.
  unfold score_of, comparisons, fuzzy_score.
  destruct (normalize_name_length name) as [H|H].
  - rewrite H. simpl. split.
    + constructor. reflexivity.
    + constructor; [apply Qle_refl|constructor].
  - destruct (Nat.eqb (length (normalize_name name)) 1) eqn:E1.
    { apply Nat.eqb_eq in E1. lia. }
    destruct (Nat.leb 2 (length (normalize_name name))) eqn:E2.
    2:{ apply Nat.leb_gt in E2. lia. }
    simpl.
    set (a := fuzzy h _ target). set (b := fuzzy h _ target).
    set (c := fuzzy h _ target).
    destruct (max3_upper a b c) as (Ha & Hb & Hc).
    split.
    + destruct (max3_attained a b c) as [E|[E|E]].
      * apply Exists_cons_hd. exact E.
      * apply Exists_cons_tl, Exists_cons_hd. exact E.
      * apply Exists_cons_tl, Exists_cons_tl, Exists_cons_hd. exact E.
    + repeat constructor; assumption.
Qed.

(** ** The loop over the identifiers *)

Lemma fuzzy_loop_run (h : host) (target : string) (names : list string) :
  forall best,
    fuzzy_loop h target names best =
    (flat_map (score_events target) names,
     Returned (fold_left (fun b n => update_best b (score_of h target n) n)
                 names best)).
Proof.
  induction names as [|name rest IH]; intros best; simpl; [reflexivity|].
  rewrite fuzzy_score_run, bind_returned, IH. reflexivity.
Qed.

Lemma flat_map_score_events_fuzzy (target : string) (names : list string) :
  Forall (fun ev => is_fuzzy ev = true) (flat_map (score_events target) names).
Proof.
  apply List.Forall_forall. intros ev Hin.
  apply List.in_flat_map in Hin. destruct Hin as (name & _ & Hin).
  unfold score_events in Hin. apply List.in_map_iff in Hin.
  destruct Hin as (x & <- & _). reflexivity.
Qed.

Lemma filter_none {A : Type} (p q : A -> bool) (l : list A) :
  Forall (fun x => p x = true) l -> (forall x, p x = true -> q x = false) ->
  List.filter q l = [].
Proof.
  intros Hall Hpq. induction Hall as [|x l Hx _ IH]; simpl; [reflexivity|].
  rewrite (Hpq x Hx). exact IH.
Qed.

Lemma fold_best_snoc (score : string -> Q) (names : list string) (x : string)
    (best : option (Q * string)) :
  fold_left (fun b n => update_best b (score n) n) (names ++ [x]) best =
  update_best (fold_left (fun b n => update_best b (score n) n) names best)
    (score x) x.
Proof. rewrite fold_left_app. reflexivity. Qed.

(** With [pct >= best[0]] as the test, the candidate kept at the end of
    the loop is the last identifier of maximal score. *)
Lemma fold_best_last_maximal (score : string -> Q) (names : list string) :
  names <> [] ->
  exists name,
    fold_left (fun b n => update_best b (score n) n) names None =
      Some (score name, name) /\
    last_maximal score names name.
Proof.
  induction names as [|x l IH] using rev_ind; intros Hne; [congruence|].
  rewrite fold_best_snoc.
  destruct l as [|y l'].
  - simpl. exists x. split; [reflexivity|].
    exists [], []. repeat split; constructor.
  - destruct IH as (name & Hfold & pre & post & Heq & Hpre & Hpost);
      [discriminate|].
    rewrite Hfold. unfold update_best.
    destruct (Qle_bool (score name) (score x)) eqn:E.
    + apply Qle_bool_iff in E. exists x. split; [reflexivity|].
      exists (y :: l'), []. split; [reflexivity|]. split; [|constructor].
      rewrite Heq. apply List.Forall_app. split.
      * eapply List.Forall_impl; [|exact Hpre].
        intros n Hn. simpl in Hn. eapply Qle_trans; eassumption.
      * constructor; [exact E|].
        eapply List.Forall_impl; [|exact Hpost].
        intros n Hn. simpl in Hn. apply Qlt_le_weak.
        eapply Qlt_le_trans; eassumption.
    + exists name. split; [reflexivity|].
      exists pre, (post ++ [x]). split.
      * rewrite Heq. rewrite <- app_assoc. reflexivity.
      * split; [exact Hpre|]. apply List.Forall_app. split; [exact Hpost|].
        constructor; [|constructor].
        apply Qnot_le_lt. intros Hle. apply Qle_bool_iff in Hle. congruence.
Qed.

Lemma last_maximal_in (score : string -> Q) (names : list string) (name : string) :
  last_maximal score names name -> In name names.
Proof.
  intros (pre & post & -> & _). apply in_or_app. right. left. reflexivity.
Qed.

Lemma last_maximal_upper (score : string -> Q) (names : list string)
    (name n : string) :
  last_maximal score names name -> In n names -> (score n <= score name)%Q.
Proof.
  intros (pre & post & -> & Hpre & Hpost) Hin.
  apply in_app_or in Hin. destruct Hin as [Hin|[<-|Hin]].
  - exact (proj1 (List.Forall_forall _ _) Hpre n Hin).
  - apply Qle_refl.
  - apply Qlt_le_weak. exact (proj1 (List.Forall_forall _ _) Hpost n Hin).
Qed.

(** ** The tiers of [get_timezone] *)

Lemma get_timezone_tiers (h : host) (locale : string) :
  get_timezone h locale =
  match city_timezone h locale with
  | Some tz => ([], Returned (Some tz))
  | None =>
      match pytz_zone h locale with
      | Some tz => ([], Returned (Some tz))
      | None => translated_tier h locale
      end
  end.
Proof.
  unfold get_timezone, city_timezone, astral_timezone, pytz_timezone.
  destruct (astral h locale) as [zone|]; simpl.
  - destruct (pytz_zone h zone) as [tz|]; simpl; [reflexivity|].
    destruct (pytz_zone h locale) as [tz|]; simpl; [reflexivity|].
    destruct (translated_tier h locale); reflexivity.
  - destruct (pytz_zone h locale) as [tz|]; simpl; [reflexivity|].
    destruct (translated_tier h locale); reflexivity.
Qed.

Lemma translated_tier_cases (h : host) (locale : string) :
  translated_tier h locale =
  match translated_value locale (namedvalues h "timezone.value") with
  | Some value =>
      ([TranslateNamedvalues "timezone.value"],
       match pytz_zone h (PyStr.strip value) with
       | Some tz => Returned (Some tz)
       | None => Raised UnknownTimeZoneError
       end)
  | None =>
      (TranslateNamedvalues "timezone.value" :: trace (fuzzy_tier h locale),
       result (fuzzy_tier h locale))
  end.
Proof.
  unfold translated_tier, translate_namedvalues, pytz_timezone. simpl.
  destruct (translated_value locale (namedvalues h "timezone.value")) as [value|].
  - destruct (pytz_zone h (PyStr.strip value)); reflexivity.
  - destruct (fuzzy_tier h locale); reflexivity.
Qed.

Lemma fuzzy_tier_run (h : host) (locale : string) :
  let best := fold_left
                (fun b n => update_best b (score_of h (PyStr.lower locale) n) n)
                (all_timezones h) None in
  fuzzy_tier h locale =
  (flat_map (score_events (PyStr.lower locale)) (all_timezones h)
     ++ trace (decide_best h best),
   result (decide_best h best)).
Proof.
  intros best. unfold fuzzy_tier. rewrite fuzzy_loop_run, bind_returned.
  reflexivity.
Qed.

Lemma filter_ask_fuzzy_tier (h : host) (locale : string) :
  let best := fold_left
                (fun b n => update_best b (score_of h (PyStr.lower locale) n) n)
                (all_timezones h) None in
  List.filter is_ask (trace (fuzzy_tier h locale)) =
  List.filter is_ask (trace (decide_best h best)).
Proof.
  intros best. rewrite fuzzy_tier_run. fold best. unfold trace at 1. simpl.
  rewrite List.filter_app.
  rewrite (filter_none is_fuzzy is_ask); [reflexivity| |].
  - apply flat_map_score_events_fuzzy.
  - intros [] H; try discriminate H; reflexivity.
Qed.

(** What [decide_best] does in each band of the score. *)
Lemma decide_best_solid (h : host) (pct : Q) (name : string) :
  (8 # 10 < pct)%Q ->
  decide_best h (Some (pct, name)) =
  ([], match pytz_zone h name with
       | Some tz => Returned (Some tz)
       | None => Raised UnknownTimeZoneError
       end).
Proof.
  intros H. unfold decide_best, pytz_timezone.
  rewrite (proj2 (Qgt_bool_true _ _) H).
  destruct (pytz_zone h name); reflexivity.
Qed.

Lemma decide_best_ask (h : host) (pct : Q) (name : string) :
  (3 # 10 < pct)%Q -> (pct <= 8 # 10)%Q ->
  decide_best h (Some (pct, name)) =
  ([AskYesno "did.you.mean.timezone" (speakable name)],
   if decide (yesno_answer h "did.you.mean.timezone" (speakable name)
              = Some "yes"%string)
   then match pytz_zone h name with
        | Some tz => Returned (Some tz)
        | None => Raised UnknownTimeZoneError
        end
   else Returned None).
Proof.
  intros Hlo Hhi. unfold decide_best, pytz_timezone, ask_yesno.
  rewrite (proj2 (Qgt_bool_false _ _) Hhi).
  rewrite (proj2 (Qgt_bool_true _ _) Hlo). simpl.
  destruct (decide _); [|reflexivity].
  destruct (pytz_zone h name); reflexivity.
Qed.

Lemma decide_best_low (h : host) (pct : Q) (name : string) :
  (pct <= 3 # 10)%Q ->
  decide_best h (Some (pct, name)) = ([], Returned None).
Proof.
  intros H. unfold decide_best.
  assert (Hhi : (pct <= 8 # 10)%Q).
  { eapply Qle_trans; [exact H|]. discriminate. }
  rewrite (proj2 (Qgt_bool_false _ _) Hhi).
  rewrite (proj2 (Qgt_bool_false _ _) H). reflexivity.
Qed.

Lemma translated_value_first_match (locale : string)
    (timezones : list (string * string)) (value : string) :
  translated_value locale timezones = Some value <->
  exists pre key post,
    timezones = pre ++ (key, value) :: post /\
    PyStr.lower locale = PyStr.lower key /\
    Forall (fun kv => PyStr.lower locale <> PyStr.lower (fst kv)) pre.
Proof.
  induction timezones as [|[k v] rest IH]; simpl.
  - split; [discriminate|]. intros (pre & key & post & H & _).
    destruct pre; discriminate H.
  - destruct (String.eqb (PyStr.lower locale) (PyStr.lower k)) eqn:E.
    + apply String.eqb_eq in E. split.
      * intros [= <-]. exists [], k, rest. repeat split; [exact E|constructor].
      * intros (pre & key & post & H & Hk & Hpre).
        destruct pre as [|[k' v'] pre'].
        -- simpl in H. injection H as -> -> _. reflexivity.
        -- simpl in H. injection H as -> -> _.
           apply List.Forall_inv in Hpre. simpl in Hpre. contradiction.
    + apply String.eqb_neq in E. rewrite IH. split.
      * intros (pre & key & post & -> & Hk & Hpre).
        exists ((k, v) :: pre), key, post. repeat split; [exact Hk|].
        constructor; [exact E|exact Hpre].
      * intros (pre & key & post & H & Hk & Hpre).
        destruct pre as [|[k' v'] pre'].
        -- simpl in H. injection H as -> -> _. contradiction.
        -- simpl in H. injection H as -> -> ->.
           exists pre', key, post. repeat split; [exact Hk|].
           exact (List.Forall_inv_tail Hpre).
Qed.

(** C2: [get_timezone] tries its tiers in a fixed order and returns at
    the first one that succeeds: the city table, then the locale as a
    literal identifier (neither calls anything observable, so no fuzzy
    matching takes place), then the translated table (the first key equal
    to the locale up to case), and only when all of these miss, the fuzzy
    tier. *)
Theorem get_timezone_tier_order (h : host) (locale : string) :
  (forall tz, city_timezone h locale = Some tz ->
     get_timezone h locale = ([], Returned (Some tz))) /\
  (forall tz, city_timezone h locale = None -> pytz_zone h locale = Some tz ->
     get_timezone h locale = ([], Returned (Some tz))) /\
  (forall value tz,
     city_timezone h locale = None -> pytz_zone h locale = None ->
     translated_value locale (namedvalues h "timezone.value") = Some value ->
     pytz_zone h (PyStr.strip value) = Some tz ->
     get_timezone h locale =
       ([TranslateNamedvalues "timezone.value"], Returned (Some tz))) /\
  (city_timezone h locale = None -> pytz_zone h locale = None ->
   translated_value locale (namedvalues h "timezone.value") = None ->
   get_timezone h locale =
     (TranslateNamedvalues "timezone.value" :: trace (fuzzy_tier h locale),
      result (fuzzy_tier h locale))) /\
  (forall value,
     translated_value locale (namedvalues h "timezone.value") = Some value <->
     exists pre key post,
       namedvalues h "timezone.value" = pre ++ (key, value) :: post /\
       PyStr.lower locale = PyStr.lower key /\
       Forall (fun kv => PyStr.lower locale <> PyStr.lower (fst kv)) pre).
Proof.
  repeat split.
  - intros tz H. rewrite get_timezone_tiers, H. reflexivity.
  - intros tz H1 H2. rewrite get_timezone_tiers, H1, H2. reflexivity.
  - intros value tz H1 H2 H3 H4.
    rewrite get_timezone_tiers, H1, H2, translated_tier_cases, H3, H4.
    reflexivity.
  - intros H1 H2 H3.
    rewrite get_timezone_tiers, H1, H2, translated_tier_cases, H3.
    reflexivity.
  - apply translated_value_first_match.
  - apply translated_value_first_match.
Qed.

Lemma get_timezone_tier_order_witness :
  get_timezone Demo.plain "dallas" = ([], Returned (Some (TzInfo "US/Central"))) /\
  get_timezone Demo.plain "UTC" = ([], Returned (Some (TzInfo "UTC"))) /\
  get_timezone (Demo.skill [("Sydney Town", " Australia/Sydney ")]%string None "" None)
    "sydney town" =
    ([TranslateNamedvalues "timezone.value"],
     Returned (Some (TzInfo "Australia/Sydney"))) /\
  result (get_timezone Demo.plain "sydney") =
    result (fuzzy_tier Demo.plain "sydney").
Proof.
  split; [|split; [|split]].
  - apply (proj1 (get_timezone_tier_order Demo.plain "dallas")).
    vm_compute; reflexivity.
  - apply (proj1 (proj2 (get_timezone_tier_order Demo.plain "UTC")));
      vm_compute; reflexivity.
  - apply (proj1 (proj2 (proj2 (get_timezone_tier_order
              (Demo.skill [("Sydney Town", " Australia/Sydney ")]%string None "" None)
              "sydney town"))) " Australia/Sydney "%string);
      vm_compute; reflexivity.
  - rewrite (proj1 (proj2 (proj2 (proj2
               (get_timezone_tier_order Demo.plain "sydney"))))).
    + reflexivity.
    + vm_compute; reflexivity.
    + vm_compute; reflexivity.
    + vm_compute; reflexivity.
Defined.

Lemma fuzzy_loop_last_maximal (h : host) (target : string)
    (names : list string) :
  names <> [] ->
  exists name,
    result (fuzzy_loop h target names None) =
      Returned (Some (score_of h target name, name)) /\
    last_maximal (score_of h target) names name.
Proof.
  intros Hne.
  destruct (fold_best_last_maximal (score_of h target) names Hne)
    as (name & Hfold & Hlast).
  exists name. split; [|exact Hlast].
  rewrite fuzzy_loop_run, result_pair, Hfold. reflexivity.
Qed.

(** C3, as amended: the score of an identifier is the greatest of up
    to three similarities with the target, those of the strings of
    [comparisons]: the only component of a one-component identifier;
    otherwise the second component alone, the last two components joined
    by a space, and the same two in the other order.  For identifiers of
    at most two components these are the short name alone and the two
    combinations of short name and parent region.  Because the test is
    [pct >= best[0]], the candidate kept after the loop is the last
    identifier, in iteration order, whose score is maximal. *)
Theorem fuzzy_loop_keeps_last_maximal (h : host) (target : string) :
  (forall name,
     fuzzy_score h target name =
       (score_events target name, Returned (score_of h target name)) /\
     maximum_over h target (comparisons name) (score_of h target name) /\
     (length (comparisons name) <= 3)%nat /\
     ((length (normalize_name name) <= 2)%nat ->
      forall x, In x (comparisons name) <-> In x (spec_comparisons name))) /\
  result (fuzzy_loop h target [] None) = Returned None /\
  (forall names, names <> [] ->
     exists name,
       result (fuzzy_loop h target names None) =
         Returned (Some (score_of h target name, name)) /\
       last_maximal (score_of h target) names name).
Proof.
  split; [|split].
  - intros name. split; [apply fuzzy_score_run|].
    split; [apply score_of_max|]. split.
    + unfold comparisons.
      destruct (Nat.eqb (length (normalize_name name)) 1); simpl; lia.
    + intros Hlen x. unfold comparisons, spec_comparisons, short_name, parent_region.
      destruct (normalize_name name) as [|a [|b [|c l]]] eqn:E;
        simpl in Hlen; try lia.
      * exfalso. exact (split_not_nil _ _ E).
      * simpl. tauto.
      * simpl. tauto.
  - reflexivity.
  - apply fuzzy_loop_last_maximal.
Qed.

Lemma fuzzy_loop_keeps_last_maximal_witness :
  Demo.zones <> [] /\
  (exists name,
     result (fuzzy_loop Demo.plain "eastern" Demo.zones None) =
       Returned (Some (score_of Demo.plain "eastern" name, name)) /\
     last_maximal (score_of Demo.plain "eastern") Demo.zones name) /\
  (forall x, In x (comparisons "Canada/Eastern") <->
             In x (spec_comparisons "Canada/Eastern")).
Proof.
  split; [discriminate|]. split.
  - apply (proj2 (proj2 (fuzzy_loop_keeps_last_maximal Demo.plain "eastern"))).
    discriminate.
  - apply (proj2 (proj2 (proj2 (proj1
             (fuzzy_loop_keeps_last_maximal Demo.plain "eastern")
             "Canada/Eastern"%string)))).
    vm_compute. lia.
Defined.

(** ** The similarity ratio *)

Lemma common_prefix_le (a b : list ascii) :
  (Difflib.common_prefix a b <= length a)%nat /\
  (Difflib.common_prefix a b <= length b)%nat.
Proof.
  revert b. induction a as [|x a IH]; intros [|y b]; simpl; try lia.
  destruct (Ascii.eqb x y); [|lia].
  destruct (IH b). lia.
Qed.

Lemma common_prefix_refl (a : list ascii) : Difflib.common_prefix a a = length a.
Proof.
  induction a as [|x a IH]; simpl; [reflexivity|].
  rewrite Ascii.eqb_refl, IH. reflexivity.
Qed.

Lemma scan_b_inside (la lb : nat) (a_i : list ascii) (i : nat) :
  (length a_i + i <= la)%nat ->
  forall b_j j best,
    (length b_j + j <= lb)%nat -> block_inside la lb best ->
    block_inside la lb (Difflib.scan_b a_i b_j i j best).
Proof.
  intros Ha. induction b_j as [|y b' IH]; intros j best Hb Hbest; simpl;
    [exact Hbest|].
  apply IH; [simpl in Hb; lia|].
  destruct (Nat.ltb _ _); [|exact Hbest].
  destruct (common_prefix_le a_i (y :: b')) as [H1 H2].
  simpl in *. lia.
Qed.

Lemma scan_a_inside (la : nat) (b : list ascii) :
  forall a_i i best,
    (length a_i + i <= la)%nat -> block_inside la (length b) best ->
    block_inside la (length b) (Difflib.scan_a a_i b i best).
Proof.
  induction a_i as [|x a' IH]; intros i best Ha Hbest; simpl; [exact Hbest|].
  apply IH; [simpl in Ha; lia|].
  apply scan_b_inside; [exact Ha|lia|exact Hbest].
Qed.

Lemma find_longest_match_inside (a b : list ascii) :
  block_inside (length a) (length b) (Difflib.find_longest_match a b).
Proof.
  unfold Difflib.find_longest_match.
  apply scan_a_inside; [lia|]. simpl. lia.
Qed.

Lemma matches_le (fuel : nat) :
  forall a b,
    (Difflib.matches fuel a b <= length a)%nat /\
    (Difflib.matches fuel a b <= length b)%nat.
Proof.
  induction fuel as [|fuel IH]; intros a b; simpl; [lia|].
  assert (Hin := find_longest_match_inside a b).
  destruct (Difflib.find_longest_match a b) as [[i j] k].
  simpl in Hin. destruct Hin as [Hi Hj].
  destruct (Nat.eqb k 0); [lia|].
  destruct (IH (firstn i a) (firstn j b)) as [L1 L2].
  destruct (IH (skipn (i + k) a) (skipn (j + k) b)) as [R1 R2].
  rewrite List.length_firstn in L1, L2. rewrite List.length_skipn in R1, R2.
  lia.
Qed.

Lemma ratio_le_1 (x against : string) : (Difflib.ratio x against <= 1)%Q.
Proof.
  unfold Difflib.ratio.
  set (a := list_ascii_of_string x). set (b := list_ascii_of_string against).
  destruct (Nat.eqb (length a + length b) 0) eqn:E; [apply Qle_refl|].
  apply Nat.eqb_neq in E.
  destruct (matches_le (S (length a)) a b) as [Ha Hb].
  set (m := Difflib.matches (S (length a)) a b) in *.
  unfold Qle. cbn [Qnum Qden].
  rewrite Z.mul_1_r, Z.mul_1_l, <- Znat.positive_nat_Z, Nat2Pos.id by exact E.
  lia.
Qed.

Lemma scan_b_stable (a_i : list ascii) (i : nat) :
  forall b_j j best,
    (length b_j <= snd best)%nat -> Difflib.scan_b a_i b_j i j best = best.
Proof.
  induction b_j as [|y b' IH]; intros j best H; simpl; [reflexivity|].
  destruct (common_prefix_le a_i (y :: b')) as [_ H2].
  destruct (Nat.ltb (snd best) (Difflib.common_prefix a_i (y :: b'))) eqn:E.
  - apply Nat.ltb_lt in E. lia.
  - apply IH. simpl in H. lia.
Qed.

Lemma scan_a_stable (b : list ascii) :
  forall a_i i best,
    (length b <= snd best)%nat -> Difflib.scan_a a_i b i best = best.
Proof.
  induction a_i as [|x a' IH]; intros i best H; simpl; [reflexivity|].
  rewrite scan_b_stable by exact H. apply IH. exact H.
Qed.

Lemma find_longest_match_refl (a : list ascii) :
  a <> [] -> Difflib.find_longest_match a a = (O, O, length a).
Proof.
  intros Hne. destruct a as [|x a']; [congruence|].
  unfold Difflib.find_longest_match.
  change (Difflib.scan_a (x :: a') (x :: a') 0 (O, O, O))
    with (Difflib.scan_a a' (x :: a') 1
            (Difflib.scan_b (x :: a') (x :: a') 0 0 (O, O, O))).
  change (Difflib.scan_b (x :: a') (x :: a') 0 0 (O, O, O))
    with (Difflib.scan_b (x :: a') a' 0 1
            (if Nat.ltb 0 (Difflib.common_prefix (x :: a') (x :: a'))
             then (O, O, Difflib.common_prefix (x :: a') (x :: a'))
             else (O, O, O))).
  rewrite common_prefix_refl. simpl Nat.ltb. cbv iota.
  rewrite scan_b_stable by (simpl; lia).
  apply scan_a_stable. simpl. lia.
Qed.

Lemma matches_nil (fuel : nat) : Difflib.matches fuel [] [] = O.
Proof. destruct fuel; reflexivity. Qed.

Lemma matches_refl (fuel : nat) (a : list ascii) :
  Difflib.matches (S fuel) a a = length a.
Proof.
  destruct a as [|x a'] eqn:Ea; [reflexivity|]. rewrite <- Ea.
  assert (Hne : a <> []) by (rewrite Ea; discriminate).
  change (Difflib.matches (S fuel) a a) with
    (let '(i, j, k) := Difflib.find_longest_match a a in
     if Nat.eqb k 0 then O
     else (k + Difflib.matches fuel (firstn i a) (firstn j a)
             + Difflib.matches fuel (skipn (i + k) a) (skipn (j + k) a))%nat).
  rewrite (find_longest_match_refl a Hne).
  assert (Hlen : length a <> O) by (rewrite Ea; discriminate).
  destruct (Nat.eqb (length a) 0) eqn:E; [apply Nat.eqb_eq in E; lia|].
  simpl firstn. simpl Nat.add. rewrite List.skipn_all, !matches_nil. lia.
Qed.

Lemma ratio_refl (x : string) : (Difflib.ratio x x == 1)%Q.
Proof.
  unfold Difflib.ratio.
  set (a := list_ascii_of_string x).
  destruct (Nat.eqb (length a + length a) 0) eqn:E; [reflexivity|].
  apply Nat.eqb_neq in E. rewrite matches_refl.
  unfold Qeq. cbn [Qnum Qden].
  rewrite Z.mul_1_r, Z.mul_1_l, <- Znat.positive_nat_Z, Nat2Pos.id by exact E.
  lia.
Qed.

(** ** The fuzzy tier *)

(** C3, as stated, fails: for the three-component identifier
    America/Kentucky/Monticello and the target "monticello" the score of
    the code (20/29) is not the greatest of the similarities of the short
    name alone and of its two combinations with the parent region: the
    short name alone has similarity 1, but the code compares the second
    component, "kentucky", in its place. *)
Lemma spec_comparisons_counterexample :
  ~ maximum_over Demo.plain "monticello"
      (spec_comparisons "America/Kentucky/Monticello")
      (score_of Demo.plain "monticello" "America/Kentucky/Monticello").
Proof.
  intros [_ Hall].
  assert (E : spec_comparisons "America/Kentucky/Monticello" =
              ["monticello"; "monticello kentucky"; "kentucky monticello"]%string)
    by (vm_compute; reflexivity).
  rewrite E in Hall. apply List.Forall_inv in Hall.
  vm_compute in Hall. apply Hall. reflexivity.
Qed.

Example score_monticello :
  score_of Demo.plain "monticello" "America/Kentucky/Monticello" = (20 # 29)%Q /\
  comparisons "America/Kentucky/Monticello" =
    ["kentucky"; "kentucky monticello"; "monticello kentucky"]%string.
Proof. split; vm_compute; reflexivity. Qed.

Example speakable_examples :
  speakable "America/North_Dakota/Center" = "Center North Dakota America"%string /\
  speakable "Chile/EasterIsland" = "Easter Island Chile"%string /\
  speakable "Australia/Sydney" = "Sydney Australia"%string.
Proof. repeat split; vm_compute; reflexivity. Qed.

Lemma filter_ask_translate (t : list event) :
  List.filter is_ask (TranslateNamedvalues "timezone.value" :: t) =
  List.filter is_ask t.
Proof. reflexivity. Qed.

(** What [get_timezone] does once the first three tiers have missed and
    the loop has kept the candidate [best]. *)
Lemma get_timezone_fuzzy (h : host) (locale : string)
    (best : option (Q * string)) :
  city_timezone h locale = None ->
  pytz_zone h locale = None ->
  translated_value locale (namedvalues h "timezone.value") = None ->
  result (fuzzy_loop h (PyStr.lower locale) (all_timezones h) None) =
    Returned best ->
  result (get_timezone h locale) = result (decide_best h best) /\
  List.filter is_ask (trace (get_timezone h locale)) =
    List.filter is_ask (trace (decide_best h best)).
Proof.
  intros H1 H2 H3 Hloop.
  rewrite fuzzy_loop_run in Hloop. unfold result in Hloop at 1.
  simpl in Hloop. injection Hloop as Hbest.
  rewrite get_timezone_tiers, H1, H2, translated_tier_cases, H3.
  rewrite trace_pair, result_pair.
  rewrite filter_ask_translate, filter_ask_fuzzy_tier.
  rewrite fuzzy_tier_run, result_pair.
  rewrite Hbest. split; reflexivity.
Qed.

(** *** The rendering of the candidate *)

Lemma is_upper_not_lower (c : ascii) :
  PyStr.is_upper c = true -> PyStr.is_lower c = false.
Proof.
  unfold PyStr.is_upper, PyStr.is_lower. intros H.
  apply andb_true_iff in H. destruct H as [_ H]. apply Nat.leb_le in H.
  apply andb_false_iff. left. apply Nat.leb_gt. lia.
Qed.

Lemma sub_camel_cons (c1 c2 : ascii) (r : string) :
  PyStr.sub_camel (String c1 (String c2 r)) =
  if (PyStr.is_lower c1 && PyStr.is_upper c2)%bool
  then String c1 (String " "%char (String c2 (PyStr.sub_camel r)))
  else String c1 (PyStr.sub_camel (String c2 r)).
Proof. reflexivity. Qed.

Lemma sub_camel_spec_words (s : string) :
  (forall c, PyStr.replace "_" " " (PyStr.sub_camel (String c s)) =
             String (if Ascii.eqb c "_" then " "%char else c)
               (spec_words (PyStr.is_lower c) s)) /\
  PyStr.replace "_" " " (PyStr.sub_camel s) = spec_words false s.
Proof.
  induction s as [|c2 r [IH1 IH2]].
  - split; [intros c|]; reflexivity.
  - split.
    + intros c. rewrite sub_camel_cons. cbn [spec_words].
      destruct (PyStr.is_lower c && PyStr.is_upper c2)%bool eqn:E.
      * apply andb_true_iff in E. destruct E as [_ Hup].
        cbn [PyStr.replace]. rewrite IH2, (is_upper_not_lower _ Hup).
        reflexivity.
      * cbn [PyStr.replace]. rewrite IH1. reflexivity.
    + rewrite IH1. reflexivity.
Qed.

Lemma split_cons_other (c : ascii) (s : string) :
  Ascii.eqb c "/" = false ->
  PyStr.split "/" (String c s) =
  match PyStr.split "/" s with
  | [] => [String c EmptyString]
  | w :: ws => String c w :: ws
  end.
Proof. intros H. cbn [PyStr.split]. rewrite H. reflexivity. Qed.

Lemma split_spec_words (s : string) : forall b,
  PyStr.split "/" (spec_words b s) =
  match PyStr.split "/" s with
  | w :: ws => spec_words b w :: map (spec_words false) ws
  | [] => []
  end.
Proof.
  induction s as [|c r IH]; intros b; [reflexivity|].
  destruct (Ascii.eqb c "/") eqn:Ec.
  - apply Ascii.eqb_eq in Ec. subst c.
    assert (E : spec_words b (String "/" r) = String "/" (spec_words false r)).
    { cbn [spec_words]. destruct b; reflexivity. }
    rewrite E. cbn [PyStr.split]. simpl Ascii.eqb. cbv iota.
    rewrite IH. destruct (PyStr.split "/" r); reflexivity.
  - rewrite (split_cons_other c r Ec).
    assert (Ec' : Ascii.eqb (if Ascii.eqb c "_" then " "%char else c) "/" = false).
    { destruct (Ascii.eqb c "_"); [reflexivity|exact Ec]. }
    cbn [spec_words].
    destruct (b && PyStr.is_upper c)%bool eqn:Eb.
    + rewrite (split_cons_other " " _ eq_refl), (split_cons_other _ _ Ec'), IH.
      destruct (PyStr.split "/" r) as [|w ws]; cbn [spec_words]; rewrite ?Eb; reflexivity.
    + rewrite (split_cons_other _ _ Ec'), IH.
      destruct (PyStr.split "/" r) as [|w ws]; cbn [spec_words]; rewrite ?Eb; reflexivity.
Qed.

Lemma append_EmptyString_r (s : string) : s +:+ EmptyString = s.
Proof.
  induction s as [|c r IH]; [reflexivity|].
  change (String c (r +:+ EmptyString) = String c r). rewrite IH. reflexivity.
Qed.

Lemma append_snoc (a : string) (c : ascii) (w : string) :
  (a +:+ String c EmptyString) +:+ w = a +:+ String c w.
Proof.
  induction a as [|d r IH]; [reflexivity|].
  change (String d ((r +:+ String c EmptyString) +:+ w) = String d (r +:+ String c w)).
  rewrite IH. reflexivity.
Qed.

Lemma spec_hierarchy_from_split (s : string) : forall region,
  spec_hierarchy_from region s =
  match PyStr.split "/" s with
  | w :: ws => (region +:+ w) :: ws
  | [] => [region]
  end.
Proof.
  induction s as [|c r IH]; intros region.
  - simpl. rewrite append_EmptyString_r. reflexivity.
  - cbn [spec_hierarchy_from PyStr.split].
    destruct (Ascii.eqb c "/").
    + rewrite IH, append_EmptyString_r.
      destruct (PyStr.split "/" r) as [|w ws] eqn:E; [|reflexivity].
      exfalso. exact (split_not_nil _ _ E).
    + rewrite IH. destruct (PyStr.split "/" r) as [|w ws]; [reflexivity|].
      rewrite append_snoc. reflexivity.
Qed.

Lemma join_concat (sep : string) (parts : list string) :
  PyStr.join sep parts = String.concat sep parts.
Proof.
  induction parts as [|p rest IH]; [reflexivity|].
  cbn [PyStr.join String.concat]. destruct rest; [reflexivity|].
  rewrite IH. reflexivity.
Qed.

Lemma speakable_spec_rendering (name : string) :
  speakable name = spec_rendering name.
Proof.
  unfold speakable, spec_rendering, spec_region_hierarchy.
  rewrite (proj2 (sub_camel_spec_words name)), split_spec_words.
  rewrite spec_hierarchy_from_split, join_concat.
  destruct (PyStr.split "/" name) as [|w ws]; reflexivity.
Qed.

(** C4, as stated, fails: the best fuzzy score of "dallas" lies in
    (0.3, 0.8] (it is 0.4, for Canada/Eastern, over the identifiers of
    the concrete host), but the city table resolves "dallas", so
    [get_timezone] returns at its first tier and asks nothing. *)
Lemma confirmation_prompt_counterexample :
  (exists pct name,
     result (fuzzy_loop Demo.plain (PyStr.lower "dallas")
               (all_timezones Demo.plain) None) = Returned (Some (pct, name)) /\
     (3 # 10 < pct)%Q /\ (pct <= 8 # 10)%Q) /\
  get_timezone Demo.plain "dallas" = ([], Returned (Some (TzInfo "US/Central"))) /\
  ~ (length (List.filter is_ask (trace (get_timezone Demo.plain "dallas"))) = 1%nat).
Proof.
  split; [|split].
  - exists (8 # 20)%Q, "Canada/Eastern"%string.
    split; [vm_compute; reflexivity|].
    split; [reflexivity|]. unfold Qle. simpl. lia.
  - vm_compute. reflexivity.
  - vm_compute. discriminate.
Qed.

(** C4, as amended: when none of the first three tiers resolves the
    location and the best fuzzy score lies in (0.3, 0.8], [get_timezone]
    asks exactly one yes/no question.  The question names the candidate
    by the rendering of the specification: the parts of the identifier
    between the "/" in reverse order, a space between them, with every
    "_" replaced by a space and a space put at every boundary between a
    lower-case letter and an upper-case letter.  The result is the
    candidate's timezone if and only if the answer is "yes"; on any
    other answer it is [None]. *)
Theorem confirmation_prompt (h : host) (locale : string) (pct : Q)
    (name : string) (tz : tzinfo) :
  city_timezone h locale = None ->
  pytz_zone h locale = None ->
  translated_value locale (namedvalues h "timezone.value") = None ->
  result (fuzzy_loop h (PyStr.lower locale) (all_timezones h) None) =
    Returned (Some (pct, name)) ->
  (3 # 10 < pct)%Q -> (pct <= 8 # 10)%Q ->
  pytz_zone h name = Some tz ->
  let answer := yesno_answer h "did.you.mean.timezone" (spec_rendering name) in
  List.filter is_ask (trace (get_timezone h locale)) =
    [AskYesno "did.you.mean.timezone" (spec_rendering name)] /\
  result (get_timezone h locale) =
    Returned (if decide (answer = Some "yes"%string) then Some tz else None) /\
  (result (get_timezone h locale) = Returned (Some tz) <->
   answer = Some "yes"%string).
Proof.
  intros H1 H2 H3 Hloop Hlo Hhi Htz answer.
  destruct (get_timezone_fuzzy h locale _ H1 H2 H3 Hloop) as [Hres Hask].
  rewrite Hres, Hask, (decide_best_ask h pct name Hlo Hhi), Htz.
  unfold answer. rewrite <- (speakable_spec_rendering name).
  unfold result, trace. simpl.
  split; [reflexivity|].
  destruct (decide (yesno_answer h "did.you.mean.timezone" (speakable name) =
                    Some "yes"%string)) as [Hyes|Hno].
  - split; [reflexivity|]. split; [intros _; exact Hyes|reflexivity].
  - split; [reflexivity|]. split; [discriminate|contradiction].
Qed.

Lemma confirmation_prompt_witness :
  List.filter is_ask
    (trace (get_timezone (Demo.spoken (Some "yes"%string)) "easter")) =
    [AskYesno "did.you.mean.timezone" "Easter Island Chile"] /\
  result (get_timezone (Demo.spoken (Some "yes"%string)) "easter") =
    Returned (Some (TzInfo "Chile/EasterIsland")) /\
  List.filter is_ask
    (trace (get_timezone (Demo.spoken (Some "no"%string)) "dakota")) =
    [AskYesno "did.you.mean.timezone" "Center North Dakota America"] /\
  result (get_timezone (Demo.spoken (Some "no"%string)) "dakota") =
    Returned None.
Proof.
  assert (Hyes := confirmation_prompt
                    (Demo.spoken (Some "yes"%string)) "easter"
                    (12 # 18)%Q "Chile/EasterIsland"
                    (TzInfo "Chile/EasterIsland")
                    eq_refl eq_refl eq_refl).
  assert (Hno := confirmation_prompt
                   (Demo.spoken (Some "no"%string)) "dakota"
                   (12 # 18)%Q "America/North_Dakota/Center"
                   (TzInfo "America/North_Dakota/Center")
                   eq_refl eq_refl eq_refl).
  split; [|split; [|split]].
  - apply Hyes; vm_compute; congruence.
  - apply Hyes; vm_compute; congruence.
  - apply Hno; vm_compute; congruence.
  - apply Hno; vm_compute; congruence.
Defined.

Lemma short_name_compared (name : string) :
  (length (normalize_name name) <= 2)%nat ->
  In (short_name name) (comparisons name).
Proof.
  intros Hlen. unfold comparisons, short_name.
  destruct (normalize_name name) as [|a [|b [|c l]]] eqn:E;
    simpl in Hlen; try lia.
  - exfalso. exact (split_not_nil _ _ E).
  - left. reflexivity.
  - left. reflexivity.
Qed.

(** C5, as stated, fails: "monticello" equals, up to case, the short
    name of America/Kentucky/Monticello, yet [get_timezone] does not
    return that timezone silently: the score is 20/29, a confirmation
    is asked, and without a "yes" the result is [None]. *)
Lemma short_name_match_counterexample :
  In "America/Kentucky/Monticello"%string (all_timezones Demo.plain) /\
  PyStr.lower "monticello" =
    PyStr.lower (PyStr.item (PyStr.split "/" "America/Kentucky/Monticello") (-1)) /\
  ~ (result (get_timezone Demo.plain "monticello") =
       Returned (Some (TzInfo "America/Kentucky/Monticello")) /\
     List.filter is_ask (trace (get_timezone Demo.plain "monticello")) = []).
Proof.
  split; [vm_compute; tauto|]. split; [vm_compute; reflexivity|].
  intros [H _]. vm_compute in H. discriminate H.
Qed.

(** C5, as amended: let the first three tiers miss, let the similarity
    of equal strings be 1 and no similarity exceed 1, and let every
    identifier of the list be known to [pytz].  If the locale, in lower
    case, is the short name (lower case, underscores as spaces) of an
    identifier of at most two components, then [get_timezone] asks no
    confirmation and returns the timezone of the last identifier, in
    iteration order, whose score is maximal; that score is 1. *)
Theorem short_name_match_is_silent (h : host) (locale name : string) :
  city_timezone h locale = None ->
  pytz_zone h locale = None ->
  translated_value locale (namedvalues h "timezone.value") = None ->
  In name (all_timezones h) ->
  (length (normalize_name name) <= 2)%nat ->
  short_name name = PyStr.lower locale ->
  (forall x, (fuzzy h x x == 1)%Q) ->
  (forall x y, (fuzzy h x y <= 1)%Q) ->
  (forall n, In n (all_timezones h) -> pytz_zone h n <> None) ->
  exists best tz,
    last_maximal (score_of h (PyStr.lower locale)) (all_timezones h) best /\
    (score_of h (PyStr.lower locale) best == 1)%Q /\
    pytz_zone h best = Some tz /\
    result (get_timezone h locale) = Returned (Some tz) /\
    List.filter is_ask (trace (get_timezone h locale)) = [].
Proof.
  intros H1 H2 H3 Hin Hlen Hshort Hrefl Hle Hknown.
  set (target := PyStr.lower locale) in *.
  assert (Hne : all_timezones h <> []) by (intros E; rewrite E in Hin; exact Hin).
  destruct (fuzzy_loop_last_maximal h target (all_timezones h) Hne)
    as (best & Hloop & Hlast).
  (* the score of [name] is at least 1 *)
  assert (Hname : (1 <= score_of h target name)%Q).
  { destruct (score_of_max h target name) as [_ Hall].
    assert (Hc := proj1 (List.Forall_forall _ _) Hall (short_name name)
                    (short_name_compared name Hlen)).
    simpl in Hc. rewrite Hshort in Hc.
    eapply Qle_trans; [|exact Hc]. rewrite (Hrefl target). apply Qle_refl. }
  (* the score of [best] is at most 1 *)
  assert (Hbest : (score_of h target best <= 1)%Q).
  { destruct (score_of_max h target best) as [Hex _].
    apply List.Exists_exists in Hex. destruct Hex as (x & _ & ->). apply Hle. }
  assert (Hup := last_maximal_upper _ _ _ _ Hlast Hin).
  assert (Hone : (score_of h target best == 1)%Q).
  { apply Qle_antisym; [exact Hbest|]. eapply Qle_trans; eassumption. }
  assert (Hsolid : (8 # 10 < score_of h target best)%Q).
  { rewrite Hone. reflexivity. }
  destruct (pytz_zone h best) as [tz|] eqn:Etz.
  2:{ exfalso. exact (Hknown best (last_maximal_in _ _ _ Hlast) Etz). }
  exists best, tz. split; [exact Hlast|]. split; [exact Hone|].
  split; [exact Etz|].
  destruct (get_timezone_fuzzy h locale _ H1 H2 H3 Hloop) as [Hres Hask].
  rewrite Hres, Hask, (decide_best_solid h _ best Hsolid), Etz.
  split; reflexivity.
Qed.

Lemma demo_zones_known (n : string) :
  In n (all_timezones Demo.plain) -> pytz_zone Demo.plain n <> None.
Proof.
  intros Hin. simpl in Hin.
  repeat (destruct Hin as [<-|Hin]; [vm_compute; discriminate|]).
  contradiction.
Qed.

Lemma short_name_match_is_silent_witness :
  exists best tz,
    last_maximal (score_of Demo.plain (PyStr.lower "Sydney"))
      (all_timezones Demo.plain) best /\
    (score_of Demo.plain (PyStr.lower "Sydney") best == 1)%Q /\
    pytz_zone Demo.plain best = Some tz /\
    result (get_timezone Demo.plain "Sydney") = Returned (Some tz) /\
    List.filter is_ask (trace (get_timezone Demo.plain "Sydney")) = [].
Proof.
  apply (short_name_match_is_silent Demo.plain "Sydney" "Australia/Sydney").
  - vm_compute; reflexivity.
  - vm_compute; reflexivity.
  - vm_compute; reflexivity.
  - vm_compute; tauto.
  - vm_compute; lia.
  - vm_compute; reflexivity.
  - exact ratio_refl.
  - exact ratio_le_1.
  - exact demo_zones_known.
Defined.

(** ** [_get_timezone] *)

Lemma _get_timezone_home (h : host) :
  _get_timezone h None =
  match configured_code h with
  | Some code =>
      match pytz_zone h code with
      | Some tz => ([], Returned (Some tz))
      | None => ([SpeakDialog "time.tz.not.found" None], Returned None)
      end
  | None => ([SpeakDialog "time.tz.not.found" None], Returned None)
  end.
Proof.
  unfold _get_timezone, configured_code, getitem, pytz_timezone.
  destruct (config_core h !! "location"%string) as [loc|]; [|reflexivity].
  simpl.
  destruct (loc !! "timezone"%string) as [timezone|]; [|reflexivity].
  simpl.
  destruct (timezone !! "code"%string) as [code|]; [|reflexivity].
  simpl.
  destruct (pytz_zone h code); reflexivity.
Qed.

Lemma _get_timezone_geolocation (h : host) (location : string) :
  _get_timezone h (Some location) =
  match geolocation h location with
  | Returned geo =>
      match geo !! "timezone"%string with
      | Some code =>
          match pytz_zone h code with
          | Some tz =>
              ([GetGeolocation location; LogInfo location geo],
               Returned (Some tz))
          | None =>
              ([GetGeolocation location; LogInfo location geo;
                SpeakDialog "time.tz.not.found" (Some location)],
               Returned None)
          end
      | None =>
          ([GetGeolocation location; LogInfo location geo;
            SpeakDialog "time.tz.not.found" (Some location)],
           Returned None)
      end
  | Raised e =>
      if is_KeyError e
      then ([GetGeolocation location;
             SpeakDialog "time.tz.not.found" (Some location)],
            Returned None)
      else ([GetGeolocation location], Raised e)
  end.
Proof.
  unfold _get_timezone, get_geolocation, getitem, pytz_timezone.
  destruct (geolocation h location) as [geo|e]; simpl.
  - destruct (geo !! "timezone"%string) as [code|]; [|reflexivity].
    simpl. destruct (pytz_zone h code); reflexivity.
  - destruct (is_KeyError e); reflexivity.
Qed.

(** C7: with no location, [_get_timezone] never calls the geolocation
    service; it reads the timezone code of the configuration store, and
    its result is [None] when that code is missing or is not a timezone
    known to [pytz]. *)
Theorem home_timezone_from_configuration (h : host) :
  List.filter is_geolocation (trace (_get_timezone h None)) = [] /\
  result (_get_timezone h None) =
    Returned (match configured_code h with
              | Some code => pytz_zone h code
              | None => None
              end) /\
  (configured_code h = None \/
   (exists code, configured_code h = Some code /\ pytz_zone h code = None) ->
   result (_get_timezone h None) = Returned None).
Proof.
  rewrite _get_timezone_home. split; [|split].
  - destruct (configured_code h) as [code|]; [|reflexivity].
    destruct (pytz_zone h code); reflexivity.
  - destruct (configured_code h) as [code|]; [|reflexivity].
    destruct (pytz_zone h code); reflexivity.
  - intros [->|(code & -> & ->)]; reflexivity.
Qed.

Lemma home_timezone_from_configuration_witness :
  result (_get_timezone (Demo.skill [] None "Mars/Base" None) None) =
    Returned None /\
  result (_get_timezone Demo.plain None) =
    Returned (Some (TzInfo "America/Chicago")).
Proof.
  split.
  - apply (proj2 (proj2 (home_timezone_from_configuration
                           (Demo.skill [] None "Mars/Base" None)))).
    right. exists "Mars/Base"%string. split; vm_compute; reflexivity.
  - rewrite (proj1 (proj2 (home_timezone_from_configuration Demo.plain))).
    vm_compute. reflexivity.
Defined.

(** C8, as stated, fails: when the geolocation client raises an error
    that is not a [KeyError] (a network error), [_get_timezone] does not
    return [None] and speaks no notification; the error reaches the
    caller. *)
Lemma geolocation_network_error_counterexample :
  geolocation Demo.plain "london" = Raised (OtherError "ConnectionError") /\
  ~ (result (_get_timezone Demo.plain (Some "london"%string)) = Returned None /\
     length (List.filter is_speak
               (trace (_get_timezone Demo.plain (Some "london"%string)))) = 1%nat).
Proof.
  split; [reflexivity|]. intros [H _]. vm_compute in H. discriminate H.
Qed.

(** C8, as amended: when the geolocation call returns a record or
    raises a [KeyError], [_get_timezone] returns: the timezone of the
    record's code when the record has one that [pytz] knows, and [None]
    otherwise (a [KeyError] of the lookup, a missing timezone field, an
    unknown code).  Whenever [_get_timezone] returns, it has spoken the
    not-found notification exactly once if the result is [None] and not
    at all otherwise. *)
Theorem geolocation_failure_is_not_found (h : host) :
  (forall location,
     (forall e, geolocation h location = Raised e -> e = KeyError) ->
     result (_get_timezone h (Some location)) =
       Returned (match geolocation h location with
                 | Returned geo =>
                     match geo !! "timezone"%string with
                     | Some code => pytz_zone h code
                     | None => None
                     end
                 | Raised _ => None
                 end)) /\
  (forall location r,
     result (_get_timezone h location) = Returned r ->
     List.filter is_speak (trace (_get_timezone h location)) =
       match r with
       | None => [SpeakDialog "time.tz.not.found" location]
       | Some _ => []
       end).
Proof.
  split.
  - intros location Hkey. rewrite _get_timezone_geolocation.
    destruct (geolocation h location) as [geo|e].
    + destruct (geo !! "timezone"%string) as [code|]; [|reflexivity].
      destruct (pytz_zone h code); reflexivity.
    + rewrite (Hkey e eq_refl). reflexivity.
  - intros [location|] r.
    + rewrite _get_timezone_geolocation.
      destruct (geolocation h location) as [geo|e].
      * destruct (geo !! "timezone"%string) as [code|].
        -- destruct (pytz_zone h code); intros [= <-]; reflexivity.
        -- intros [= <-]; reflexivity.
      * destruct (is_KeyError e); [intros [= <-]; reflexivity|discriminate].
    + rewrite _get_timezone_home.
      destruct (configured_code h) as [code|].
      * destruct (pytz_zone h code); intros [= <-]; reflexivity.
      * intros [= <-]; reflexivity.
Qed.

Lemma geolocation_failure_is_not_found_witness :
  result (_get_timezone Demo.plain (Some "void"%string)) = Returned None /\
  result (_get_timezone Demo.plain (Some "nowhere"%string)) = Returned None /\
  result (_get_timezone Demo.plain (Some "atlantis"%string)) = Returned None /\
  List.filter is_speak (trace (_get_timezone Demo.plain (Some "void"%string))) =
    [SpeakDialog "time.tz.not.found" (Some "void"%string)] /\
  List.filter is_speak (trace (_get_timezone Demo.plain (Some "paris"%string))) = [].
Proof.
  assert (Hres := proj1 (geolocation_failure_is_not_found Demo.plain)).
  assert (Hspeak := proj2 (geolocation_failure_is_not_found Demo.plain)).
  split; [|split; [|split; [|split]]].
  - rewrite (Hres "void"%string); [reflexivity|].
    intros e H. vm_compute in H. congruence.
  - rewrite (Hres "nowhere"%string); [reflexivity|].
    intros e H. vm_compute in H. discriminate H.
  - rewrite (Hres "atlantis"%string); [reflexivity|].
    intros e H. vm_compute in H. discriminate H.
  - apply (Hspeak (Some "void"%string) None). vm_compute. reflexivity.
  - apply (Hspeak (Some "paris"%string) (Some (TzInfo "Australia/Sydney"))).
    vm_compute. reflexivity.
Defined.

(** ** Exceptions that reach the caller *)

Lemma decide_best_returns (h : host) (best : option (Q * string)) :
  (forall pct name, best = Some (pct, name) -> pytz_zone h name <> None) ->
  returns (decide_best h best).
Proof.
  intros Hknown. unfold returns, decide_best, pytz_timezone, ask_yesno.
  destruct best as [[pct name]|]; [|eexists; reflexivity].
  specialize (Hknown pct name eq_refl).
  destruct (pytz_zone h name) as [tz|]; [|congruence].
  destruct (Qgt_bool pct (8 # 10)); [eexists; reflexivity|].
  destruct (Qgt_bool pct (3 # 10)); [|eexists; reflexivity].
  simpl. destruct (decide _); eexists; reflexivity.
Qed.

Lemma fold_best_in (score : string -> Q) (names : list string) (pct : Q)
    (name : string) :
  fold_left (fun b n => update_best b (score n) n) names None = Some (pct, name) ->
  In name names.
Proof.
  intros H. destruct names as [|x l]; [discriminate H|].
  destruct (fold_best_last_maximal score (x :: l) ltac:(discriminate))
    as (best & Hfold & Hlast).
  rewrite Hfold in H. injection H as _ <-.
  exact (last_maximal_in _ _ _ Hlast).
Qed.

(** C1, as stated, fails: with the translated table of the comment at
    line 138 of the source ("china" for "GMT+8", which [pytz] does not
    know), [get_timezone] raises [UnknownTimeZoneError] for "China". *)
Lemma translated_value_counterexample :
  result (get_timezone (Demo.skill Demo.china_table None "" None) "China") =
    Raised UnknownTimeZoneError /\
  ~ returns (get_timezone (Demo.skill Demo.china_table None "" None) "China").
Proof.
  split; [vm_compute; reflexivity|].
  intros [r H]. vm_compute in H. discriminate H.
Qed.

(** C1, as amended: [get_timezone] returns (a timezone or [None]) for
    every locale for which the value of the translated table selected by
    the locale, if there is one, names a timezone that [pytz] knows,
    provided [pytz] knows the identifiers of its own list; an unknown
    identifier in the two direct lookups makes the resolution go on with
    the translated table.  [_get_timezone] returns for no location, and
    for every location on which the geolocation call raises nothing but
    [KeyError]; an unknown code in the configuration or in the
    geolocation record gives [None]. *)
Theorem resolution_returns (h : host) :
  (forall locale,
     (forall value,
        translated_value locale (namedvalues h "timezone.value") = Some value ->
        pytz_zone h (PyStr.strip value) <> None) ->
     (forall n, In n (all_timezones h) -> pytz_zone h n <> None) ->
     returns (get_timezone h locale)) /\
  (forall locale,
     city_timezone h locale = None -> pytz_zone h locale = None ->
     get_timezone h locale = translated_tier h locale) /\
  returns (_get_timezone h None) /\
  (forall location,
     (forall e, geolocation h location = Raised e -> e = KeyError) ->
     returns (_get_timezone h (Some location))) /\
  (forall location geo code,
     geolocation h location = Returned geo ->
     geo !! "timezone"%string = Some code ->
     pytz_zone h code = None ->
     result (_get_timezone h (Some location)) = Returned None).
Proof.
  split; [|split; [|split; [|split]]].
  - intros locale Htable Hknown. rewrite get_timezone_tiers.
    destruct (city_timezone h locale); [eexists; reflexivity|].
    destruct (pytz_zone h locale); [eexists; reflexivity|].
    rewrite translated_tier_cases.
    destruct (translated_value locale (namedvalues h "timezone.value"))
      as [value|] eqn:Ev.
    + specialize (Htable value eq_refl).
      destruct (pytz_zone h (PyStr.strip value)); [|congruence].
      eexists; reflexivity.
    + unfold returns. rewrite result_pair, fuzzy_tier_run, result_pair.
      apply decide_best_returns. intros pct name Hbest.
      apply Hknown. exact (fold_best_in _ _ _ _ Hbest).
  - intros locale H1 H2. rewrite get_timezone_tiers, H1, H2. reflexivity.
  - unfold returns. rewrite _get_timezone_home.
    destruct (configured_code h) as [code|]; [|eexists; reflexivity].
    destruct (pytz_zone h code); eexists; reflexivity.
  - intros location Hkey. unfold returns.
    rewrite _get_timezone_geolocation.
    destruct (geolocation h location) as [geo|e].
    + destruct (geo !! "timezone"%string) as [code|]; [|eexists; reflexivity].
      destruct (pytz_zone h code); eexists; reflexivity.
    + rewrite (Hkey e eq_refl). eexists; reflexivity.
  - intros location geo code Hgeo Hcode Hzone.
    rewrite _get_timezone_geolocation, Hgeo, Hcode, Hzone. reflexivity.
Qed.

Lemma resolution_returns_witness :
  returns (get_timezone Demo.plain "gibberish123") /\
  returns (_get_timezone Demo.plain (Some "void"%string)) /\
  result (_get_timezone Demo.plain (Some "atlantis"%string)) = Returned None.
Proof.
  split; [|split].
  - apply (proj1 (resolution_returns Demo.plain)).
    + intros value H. vm_compute in H. discriminate H.
    + exact demo_zones_known.
  - apply (proj1 (proj2 (proj2 (proj2 (resolution_returns Demo.plain))))).
    intros e H. vm_compute in H. congruence.
  - apply (proj2 (proj2 (proj2 (proj2 (resolution_returns Demo.plain))))
             "atlantis"%string
             (<["timezone" := "Atlantis/Deep"]> ∅) "Atlantis/Deep"%string).
    + reflexivity.
    + vm_compute. reflexivity.
    + vm_compute. reflexivity.
Defined.

(** ** [_extract_location] *)

(** When every pattern compiles and no matching pattern has the group
    without the group having taken part in the match, the loop returns
    the capture of the first pattern that matches and captures, and
    otherwise keeps [location]. *)
Lemma extract_loop_first_capture (h : host) (utterance : string)
    (patterns : list string) :
  (forall p e, In p patterns -> re_search h p utterance <> Raised e) ->
  (forall p m, In p patterns -> re_search h p utterance = Returned (Some m) ->
               group_Location m <> GroupValue None) ->
  forall location,
    result (extract_loop h utterance patterns location) =
    Returned (match first_capture h utterance patterns with
              | Some s => Some s
              | None => location
              end).
Proof.
  induction patterns as [|p rest IH]; intros Hok Hset location; [reflexivity|].
  simpl.
  assert (Hok' : forall q e, In q rest -> re_search h q utterance <> Raised e).
  { intros q e Hq. apply Hok. right. exact Hq. }
  assert (Hrest : forall q m, In q rest ->
                              re_search h q utterance = Returned (Some m) ->
                              group_Location m <> GroupValue None).
  { intros q m Hq. apply Hset. right. exact Hq. }
  destruct (re_search h p utterance) as [[[g]|]|e] eqn:Es.
  - assert (Hg := Hset p _ (or_introl eq_refl) Es). simpl in Hg.
    unfold group. simpl group_Location.
    destruct g as [|[s|]]; [| |congruence].
    + unfold try_except_else, raise. simpl is_IndexError. cbv iota.
      specialize (IH Hok' Hrest location).
      destruct (extract_loop h utterance rest location). exact IH.
    + reflexivity.
  - apply IH; assumption.
  - exfalso. exact (Hok p e (or_introl eq_refl) Es).
Qed.

Lemma extract_location_first_capture (h : host) (utterance : string) :
  (forall p e, In p (_get_location_patterns h) ->
               re_search h p utterance <> Raised e) ->
  (forall p m, In p (_get_location_patterns h) ->
               re_search h p utterance = Returned (Some m) ->
               group_Location m <> GroupValue None) ->
  result (_extract_location h utterance) =
  Returned (first_capture h utterance (_get_location_patterns h)).
Proof.
  intros Hok Hset. unfold _extract_location.
  rewrite (extract_loop_first_capture h utterance _ Hok Hset None).
  destruct (first_capture h utterance (_get_location_patterns h)); reflexivity.
Qed.

Example extract_location_examples :
  let h := Demo.skill [] None ""
             (Some ["# where"; "what time"; " ( in (?P<Location>.+))?$ "]%string) in
  _get_location_patterns h = ["what time"; Demo.optional_location]%string /\
  result (_extract_location h "what time is it in paris") =
    Returned (Some "paris"%string) /\
  result (_extract_location
            (Demo.skill [] None "" (Some ["what time"]%string)) "what time is it") =
    Returned None /\
  result (_extract_location (Demo.skill [] None "" None) "what time is it") =
    Returned None.
Proof. repeat split; vm_compute; reflexivity. Qed.

(** C6: the contract of the extraction is [first_capture]: the capture
    of the first pattern that matches and captures the group "Location",
    [None] when there is none.  The code departs from it when a pattern
    matches, has the group, and the group took no part in the match:
    [group("Location")] then returns [None] without raising
    [IndexError], and the concatenation of the log message with [None]
    raises [TypeError].  Here the only pattern is
    [( in (?P<Location>.+))?$] and the utterance has no location. *)
Theorem extract_location_unset_group :
  let h := Demo.skill [] None "" (Some [Demo.optional_location]) in
  first_capture h "what time is it" (_get_location_patterns h) = None /\
  _extract_location h "what time is it" = ([], Raised TypeError).
Proof. split; vm_compute; reflexivity. Qed.

(** * Further properties *)

(** ** What [get_timezone] does and never does *)

Lemma decide_best_trace (h : host) (best : option (Q * string)) :
  trace (decide_best h best) = [] \/
  exists name,
    trace (decide_best h best) =
      [AskYesno "did.you.mean.timezone" (speakable name)].
Proof.
  unfold decide_best, pytz_timezone, ask_yesno.
  destruct best as [[pct name]|]; [|left; reflexivity].
  destruct (Qgt_bool pct (8 # 10)).
  - left. destruct (pytz_zone h name); reflexivity.
  - destruct (Qgt_bool pct (3 # 10)); [|left; reflexivity].
    right. exists name. simpl. destruct (decide _); [|reflexivity].
    destruct (pytz_zone h name); reflexivity.
Qed.

(** The three shapes of a run of [get_timezone]. *)
Lemma get_timezone_trace (h : host) (locale : string) :
  trace (get_timezone h locale) = [] \/
  trace (get_timezone h locale) = [TranslateNamedvalues "timezone.value"] \/
  exists best,
    trace (get_timezone h locale) =
      TranslateNamedvalues "timezone.value"
        :: flat_map (score_events (PyStr.lower locale)) (all_timezones h)
        ++ trace (decide_best h best).
Proof.
  rewrite get_timezone_tiers.
  destruct (city_timezone h locale); [left; reflexivity|].
  destruct (pytz_zone h locale); [left; reflexivity|].
  rewrite translated_tier_cases.
  destruct (translated_value locale (namedvalues h "timezone.value")).
  - right. left. reflexivity.
  - right. right. eexists. rewrite trace_pair, fuzzy_tier_run, trace_pair.
    reflexivity.
Qed.

Lemma filter_fuzzy_events (q : event -> bool) (target : string)
    (names : list string) :
  (forall x against, q (FuzzyMatch x against) = false) ->
  List.filter q (flat_map (score_events target) names) = [].
Proof.
  intros Hq. apply (filter_none is_fuzzy q).
  - apply flat_map_score_events_fuzzy.
  - intros [] H; try discriminate H. apply Hq.
Qed.

(** X1: on every run [get_timezone] asks at most one yes/no question,
    speaks no dialog and never calls the geolocation service. *)
Theorem get_timezone_single_question (h : host) (locale : string) :
  (length (List.filter is_ask (trace (get_timezone h locale))) <= 1)%nat /\
  List.filter is_speak (trace (get_timezone h locale)) = [] /\
  List.filter is_geolocation (trace (get_timezone h locale)) = [].
Proof.
  destruct (get_timezone_trace h locale) as [->|[->|(best & ->)]].
  - simpl. repeat split. lia.
  - simpl. repeat split. lia.
  - cbn [List.filter is_ask is_speak is_geolocation].
    rewrite !List.filter_app.
    rewrite !filter_fuzzy_events by reflexivity. cbn [app].
    destruct (decide_best_trace h best) as [->|(name & ->)];
      simpl; repeat split; lia.
Qed.

Lemma score_events_length (target name : string) :
  (length (score_events target name) <= 3)%nat.
Proof.
  unfold score_events, comparisons. rewrite List.length_map.
  destruct (Nat.eqb (length (normalize_name name)) 1); simpl; lia.
Qed.

Lemma flat_map_score_events_length (target : string) (names : list string) :
  (length (flat_map (score_events target) names) <= 3 * length names)%nat.
Proof.
  induction names as [|name rest IH]; simpl; [lia|].
  rewrite List.length_app.
  assert (H := score_events_length target name). lia.
Qed.

Lemma filter_length_le {A : Type} (p : A -> bool) (l : list A) :
  (length (List.filter p l) <= length l)%nat.
Proof.
  induction l as [|x l IH]; simpl; [lia|].
  destruct (p x); simpl; lia.
Qed.

(** X2: a run of [get_timezone] calls [fuzzy_match] at most three times
    for each identifier of [pytz.all_timezones], always against the
    locale in lower case. *)
Theorem get_timezone_comparisons_bounded (h : host) (locale : string) :
  (length (List.filter is_fuzzy (trace (get_timezone h locale)))
   <= 3 * length (all_timezones h))%nat /\
  (forall x against,
     In (FuzzyMatch x against) (trace (get_timezone h locale)) ->
     against = PyStr.lower locale).
Proof.
  destruct (get_timezone_trace h locale) as [->|[->|(best & ->)]].
  - split; [simpl; lia|]. intros x against [].
  - split; [simpl; lia|]. intros x against [H|[]]. discriminate H.
  - split.
    + cbn [List.filter is_fuzzy]. rewrite List.filter_app.
      rewrite List.length_app.
      assert (H1 := filter_length_le is_fuzzy
                      (flat_map (score_events (PyStr.lower locale))
                         (all_timezones h))).
      assert (H2 := flat_map_score_events_length (PyStr.lower locale)
                      (all_timezones h)).
      destruct (decide_best_trace h best) as [->|(name & ->)]; simpl; lia.
    + intros x against [H|H]; [discriminate H|].
      apply in_app_or in H. destruct H as [H|H].
      * apply List.in_flat_map in H. destruct H as (name & _ & H).
        unfold score_events in H. apply List.in_map_iff in H.
        destruct H as (y & [= _ <-] & _). reflexivity.
      * destruct (decide_best_trace h best) as [E|(name & E)];
          rewrite E in H; [destruct H|].
        destruct H as [H|[]]. discriminate H.
Qed.

(** X3: when the first three tiers miss and the best fuzzy score is
    above 0.8, [get_timezone] returns the timezone of the best
    identifier without asking. *)
Theorem solid_choice_is_silent (h : host) (locale : string) (pct : Q)
    (name : string) (tz : tzinfo) :
  city_timezone h locale = None ->
  pytz_zone h locale = None ->
  translated_value locale (namedvalues h "timezone.value") = None ->
  result (fuzzy_loop h (PyStr.lower locale) (all_timezones h) None) =
    Returned (Some (pct, name)) ->
  (8 # 10 < pct)%Q ->
  pytz_zone h name = Some tz ->
  result (get_timezone h locale) = Returned (Some tz) /\
  List.filter is_ask (trace (get_timezone h locale)) = [].
Proof.
  intros H1 H2 H3 Hloop Hpct Htz.
  destruct (get_timezone_fuzzy h locale _ H1 H2 H3 Hloop) as [Hres Hask].
  rewrite Hres, Hask, (decide_best_solid h pct name Hpct), Htz.
  split; reflexivity.
Qed.

Lemma solid_choice_is_silent_witness :
  result (get_timezone Demo.plain "sydney australia") =
    Returned (Some (TzInfo "Australia/Sydney")) /\
  List.filter is_ask (trace (get_timezone Demo.plain "sydney australia")) = [].
Proof.
  apply (solid_choice_is_silent Demo.plain "sydney australia" (32 # 32)%Q
           "Australia/Sydney" (TzInfo "Australia/Sydney")).
  - vm_compute; reflexivity.
  - vm_compute; reflexivity.
  - vm_compute; reflexivity.
  - vm_compute; reflexivity.
  - vm_compute; reflexivity.
  - vm_compute; reflexivity.
Defined.

(** X4: when the first three tiers miss and no identifier scores above
    0.3 (in particular when the list of identifiers is empty),
    [get_timezone] returns [None] without asking anything. *)
Theorem low_score_is_not_found (h : host) (locale : string) :
  city_timezone h locale = None ->
  pytz_zone h locale = None ->
  translated_value locale (namedvalues h "timezone.value") = None ->
  (forall name, In name (all_timezones h) ->
                (score_of h (PyStr.lower locale) name <= 3 # 10)%Q) ->
  result (get_timezone h locale) = Returned None /\
  List.filter is_ask (trace (get_timezone h locale)) = [].
Proof.
  intros H1 H2 H3 Hlow.
  destruct (all_timezones h) as [|n0 rest] eqn:Enames.
  - assert (Hloop : result (fuzzy_loop h (PyStr.lower locale) (all_timezones h) None)
                    = Returned None) by (rewrite Enames; reflexivity).
    destruct (get_timezone_fuzzy h locale _ H1 H2 H3 Hloop) as [Hres Hask].
    rewrite Hres, Hask. split; reflexivity.
  - destruct (fuzzy_loop_last_maximal h (PyStr.lower locale) (n0 :: rest)
                ltac:(discriminate)) as (best & Hloop & Hlast).
    rewrite <- Enames in Hloop.
    destruct (get_timezone_fuzzy h locale _ H1 H2 H3 Hloop) as [Hres Hask].
    rewrite Hres, Hask, decide_best_low; [split; reflexivity|].
    apply Hlow. exact (last_maximal_in _ _ _ Hlast).
Qed.

Lemma low_score_is_not_found_witness :
  result (get_timezone (Demo.skill [] (Some "yes"%string) "" None) "qqq") =
    Returned None /\
  List.filter is_ask
    (trace (get_timezone (Demo.skill [] (Some "yes"%string) "" None) "qqq")) = [].
Proof.
  apply (low_score_is_not_found (Demo.skill [] (Some "yes"%string) "" None) "qqq").
  - vm_compute; reflexivity.
  - vm_compute; reflexivity.
  - vm_compute; reflexivity.
  - intros name Hin. simpl in Hin.
    repeat (destruct Hin as [<-|Hin]; [vm_compute; discriminate|]).
    contradiction.
Defined.

(** X5: a timezone returned by [get_timezone] is always one that
    [pytz] gave for an identifier at hand: the zone of the city table,
    the locale itself, the stripped value of the translated table, or an
    identifier of [pytz.all_timezones]. *)
Theorem get_timezone_provenance (h : host) (locale : string) (tz : tzinfo) :
  result (get_timezone h locale) = Returned (Some tz) ->
  exists zone,
    pytz_zone h zone = Some tz /\
    (astral h locale = Some zone \/
     zone = locale \/
     (exists value,
        translated_value locale (namedvalues h "timezone.value") = Some value /\
        zone = PyStr.strip value) \/
     In zone (all_timezones h)).
Proof.
  rewrite get_timezone_tiers. unfold city_timezone.
  destruct (astral h locale) as [zone|] eqn:Ea.
  - destruct (pytz_zone h zone) as [tz'|] eqn:Ez.
    { intros [= <-]. exists zone. auto. }
    revert Ea Ez. generalize zone. clear zone. intros zone0 _ _.
    destruct (pytz_zone h locale) as [tz'|] eqn:El.
    { intros [= <-]. exists locale. auto. }
    rewrite translated_tier_cases.
    destruct (translated_value locale (namedvalues h "timezone.value"))
      as [value|] eqn:Ev.
    + rewrite result_pair.
      destruct (pytz_zone h (PyStr.strip value)) as [tz'|] eqn:Es;
        [|discriminate].
      intros [= <-]. exists (PyStr.strip value). split; [exact Es|].
      right. right. left. exists value. auto.
    + rewrite result_pair, fuzzy_tier_run, result_pair.
      set (best := fold_left _ _ _).
      destruct best as [[pct name]|] eqn:Eb; [|discriminate].
      assert (Hin : In name (all_timezones h))
        by exact (fold_best_in _ _ _ _ Eb).
      unfold decide_best, pytz_timezone, ask_yesno.
      destruct (pytz_zone h name) as [tz'|] eqn:En.
      * destruct (Qgt_bool pct (8 # 10)).
        { intros [= <-]. exists name. auto. }
        destruct (Qgt_bool pct (3 # 10)); [|discriminate].
        simpl. destruct (decide _); [|discriminate].
        intros [= <-]. exists name. auto.
      * destruct (Qgt_bool pct (8 # 10)); [discriminate|].
        destruct (Qgt_bool pct (3 # 10)); [|discriminate].
        simpl. destruct (decide _); discriminate.
  - destruct (pytz_zone h locale) as [tz'|] eqn:El.
    { intros [= <-]. exists locale. auto. }
    rewrite translated_tier_cases.
    destruct (translated_value locale (namedvalues h "timezone.value"))
      as [value|] eqn:Ev.
    + rewrite result_pair.
      destruct (pytz_zone h (PyStr.strip value)) as [tz'|] eqn:Es;
        [|discriminate].
      intros [= <-]. exists (PyStr.strip value). split; [exact Es|].
      right. right. left. exists value. auto.
    + rewrite result_pair, fuzzy_tier_run, result_pair.
      set (best := fold_left _ _ _).
      destruct best as [[pct name]|] eqn:Eb; [|discriminate].
      assert (Hin : In name (all_timezones h))
        by exact (fold_best_in _ _ _ _ Eb).
      unfold decide_best, pytz_timezone, ask_yesno.
      destruct (pytz_zone h name) as [tz'|] eqn:En.
      * destruct (Qgt_bool pct (8 # 10)).
        { intros [= <-]. exists name. auto. }
        destruct (Qgt_bool pct (3 # 10)); [|discriminate].
        simpl. destruct (decide _); [|discriminate].
        intros [= <-]. exists name. auto.
      * destruct (Qgt_bool pct (8 # 10)); [discriminate|].
        destruct (Qgt_bool pct (3 # 10)); [|discriminate].
        simpl. destruct (decide _); discriminate.
Qed.

Lemma get_timezone_provenance_witness :
  exists zone,
    pytz_zone Demo.plain zone = Some (TzInfo "US/Eastern") /\
    (astral Demo.plain "eastern" = Some zone \/
     zone = "eastern"%string \/
     (exists value,
        translated_value "eastern" (namedvalues Demo.plain "timezone.value")
          = Some value /\
        zone = PyStr.strip value) \/
     In zone (all_timezones Demo.plain)).
Proof.
  apply (get_timezone_provenance Demo.plain "eastern" (TzInfo "US/Eastern")).
  vm_compute. reflexivity.
Defined.

Lemma translated_value_lower (l1 l2 : string) (timezones : list (string * string)) :
  PyStr.lower l1 = PyStr.lower l2 ->
  translated_value l1 timezones = translated_value l2 timezones.
Proof.
  intros E. induction timezones as [|[k v] rest IH]; simpl; [reflexivity|].
  rewrite E, IH. reflexivity.
Qed.

(** X6: once the two direct lookups miss, the resolution does not
    depend on the case of the locale: two locales that are equal in lower
    case, and that both miss the direct lookups, give the same run of
    [get_timezone] (same events, same result). *)
Theorem get_timezone_case_insensitive (h : host) (l1 l2 : string) :
  PyStr.lower l1 = PyStr.lower l2 ->
  city_timezone h l1 = None -> pytz_zone h l1 = None ->
  city_timezone h l2 = None -> pytz_zone h l2 = None ->
  get_timezone h l1 = get_timezone h l2.
Proof.
  intros E C1 P1 C2 P2.
  rewrite !get_timezone_tiers, C1, P1, C2, P2.
  rewrite !translated_tier_cases.
  rewrite (translated_value_lower l1 l2 _ E).
  destruct (translated_value l2 (namedvalues h "timezone.value"));
    [reflexivity|].
  unfold fuzzy_tier. rewrite E. reflexivity.
Qed.

Lemma get_timezone_case_insensitive_witness :
  get_timezone Demo.plain "SyDnEy" = get_timezone Demo.plain "sydney".
Proof.
  apply get_timezone_case_insensitive; vm_compute; reflexivity.
Defined.

(** X7: the score of an identifier stays within the range of the
    similarity function: if every similarity lies between [lo] and [hi],
    so does every score. *)
Theorem score_within_similarity_range (h : host) (lo hi : Q) :
  (forall x y, (lo <= fuzzy h x y)%Q /\ (fuzzy h x y <= hi)%Q) ->
  forall target name,
    (lo <= score_of h target name)%Q /\ (score_of h target name <= hi)%Q.
Proof.
  intros Hrange target name.
  destruct (score_of_max h target name) as [Hex _].
  apply List.Exists_exists in Hex. destruct Hex as (x & _ & ->).
  apply Hrange.
Qed.

Lemma ratio_nonneg (x against : string) : (0 <= Difflib.ratio x against)%Q.
Proof.
  unfold Difflib.ratio.
  destruct (Nat.eqb _ 0); [discriminate|].
  unfold Qle. cbn [Qnum Qden]. lia.
Qed.

Lemma score_within_similarity_range_witness :
  (0 <= score_of Demo.plain "sydney" "Australia/Sydney")%Q /\
  (score_of Demo.plain "sydney" "Australia/Sydney" <= 1)%Q.
Proof.
  apply (score_within_similarity_range Demo.plain 0 1).
  intros x y. split; [apply ratio_nonneg|apply ratio_le_1].
Defined.

(** ** What [_get_timezone] lets through *)

(** X8: with a location, an exception leaves [_get_timezone] exactly
    when the geolocation call raises it and [except KeyError] does not
    catch it, and then nothing is spoken.  A [KeyError] of the call, and
    also an [UnknownTimeZoneError], which is a [KeyError] for [pytz], is
    caught: the not-found notification is spoken and the result is
    [None].  The geolocation service is called exactly once, whatever
    the outcome. *)
Theorem _get_timezone_failure (h : host) (name : string) :
  (forall e,
     result (_get_timezone h (Some name)) = Raised e <->
     geolocation h name = Raised e /\ is_KeyError e = false) /\
  (forall e,
     result (_get_timezone h (Some name)) = Raised e ->
     List.filter is_speak (trace (_get_timezone h (Some name))) = []) /\
  (forall e,
     geolocation h name = Raised e ->
     e = KeyError \/ e = UnknownTimeZoneError ->
     _get_timezone h (Some name) =
       ([GetGeolocation name; SpeakDialog "time.tz.not.found" (Some name)],
        Returned None)) /\
  List.filter is_geolocation (trace (_get_timezone h (Some name))) =
    [GetGeolocation name].
Proof.
  rewrite _get_timezone_geolocation.
  split; [|split; [|split]].
  - intros e. split.
    + intros H. destruct (geolocation h name) as [geo|e'].
      * destruct (geo !! "timezone"%string) as [code|]; [|discriminate H].
        destruct (pytz_zone h code); discriminate H.
      * destruct (is_KeyError e') eqn:Ek; [discriminate H|].
        injection H as <-. auto.
    + intros [Hgeo Hk]. rewrite Hgeo, Hk. reflexivity.
  - intros e. destruct (geolocation h name) as [geo|e'].
    + destruct (geo !! "timezone"%string) as [code|]; [|discriminate].
      destruct (pytz_zone h code); discriminate.
    + destruct (is_KeyError e'); [discriminate|]. reflexivity.
  - intros e Hgeo [-> | ->]; rewrite Hgeo; reflexivity.
  - destruct (geolocation h name) as [geo|e'].
    + destruct (geo !! "timezone"%string) as [code|]; [|reflexivity].
      destruct (pytz_zone h code); reflexivity.
    + destruct (is_KeyError e'); reflexivity.
Qed.

Lemma _get_timezone_failure_witness :
  List.filter is_speak (trace (_get_timezone Demo.plain (Some "london"%string))) = [] /\
  _get_timezone Demo.plain (Some "void"%string) =
    ([GetGeolocation "void"; SpeakDialog "time.tz.not.found" (Some "void"%string)],
     Returned None).
Proof.
  split.
  - apply (proj1 (proj2 (_get_timezone_failure Demo.plain "london"))
             (OtherError "ConnectionError")).
    vm_compute. reflexivity.
  - apply (proj1 (proj2 (proj2 (_get_timezone_failure Demo.plain "void")))
             KeyError).
    + vm_compute. reflexivity.
    + left. reflexivity.
Defined.

(** ** The contract of [_extract_location] *)

(** The loop, in terms of the first pattern that decides it. *)
Lemma extract_loop_declared (h : host) (utterance : string)
    (patterns : list string) :
  forall location,
    extract_loop h utterance patterns location =
    match first_declared h utterance patterns with
    | None => ([], Returned location)
    | Some (Returned (Some s)) =>
        ([LogDebug ("Found location in utterance: " +:+ s)], Returned (Some s))
    | Some (Returned None) => ([], Raised TypeError)
    | Some (Raised e) => ([], Raised e)
    end.
Proof.
  induction patterns as [|p rest IH]; intros location; [reflexivity|].
  simpl.
  destruct (re_search h p utterance) as [[[g]|]|e]; [|apply IH|reflexivity].
  destruct g as [|[s|]].
  - unfold group, try_except_else, raise. simpl.
    rewrite IH. destruct (first_declared h utterance rest) as [[[s|]|e]|];
      reflexivity.
  - reflexivity.
  - reflexivity.
Qed.

Lemma first_declared_capture (h : host) (utterance : string)
    (patterns : list string) :
  (forall p e, In p patterns -> re_search h p utterance <> Raised e) ->
  (forall p m, In p patterns -> re_search h p utterance = Returned (Some m) ->
               group_Location m <> GroupValue None) ->
  first_declared h utterance patterns =
  option_map (fun s => Returned (Some s)) (first_capture h utterance patterns).
Proof.
  induction patterns as [|p rest IH]; intros Hok Hset; [reflexivity|].
  simpl.
  assert (Hok' := fun q e (Hq : In q rest) => Hok q e (or_intror Hq)).
  assert (Hrest := fun q m (Hq : In q rest) => Hset q m (or_intror Hq)).
  destruct (re_search h p utterance) as [[[g]|]|e] eqn:Es.
  - destruct g as [|[s|]].
    + apply IH; assumption.
    + reflexivity.
    + exfalso. exact (Hset p _ (or_introl eq_refl) Es eq_refl).
  - apply IH; assumption.
  - exfalso. exact (Hok p e (or_introl eq_refl) Es).
Qed.

(** X9: when every pattern compiles and no matching pattern leaves its
    group "Location" unset, [_extract_location] returns the capture of
    the first pattern, in file order, that matches and has the group,
    skipping patterns that match without having it, and [None] when
    there is no such pattern; it logs the location found, once, exactly
    when it returns one. *)
Theorem extract_location_contract (h : host) (utterance : string) :
  (forall p e, In p (_get_location_patterns h) ->
               re_search h p utterance <> Raised e) ->
  (forall p m, In p (_get_location_patterns h) ->
               re_search h p utterance = Returned (Some m) ->
               group_Location m <> GroupValue None) ->
  _extract_location h utterance =
  (match first_capture h utterance (_get_location_patterns h) with
   | Some s => [LogDebug ("Found location in utterance: " +:+ s)]
   | None => []
   end,
   Returned (first_capture h utterance (_get_location_patterns h))).
Proof.
  intros Hok Hset. unfold _extract_location.
  rewrite extract_loop_declared, (first_declared_capture _ _ _ Hok Hset).
  destruct (first_capture h utterance (_get_location_patterns h)); reflexivity.
Qed.

Lemma extract_location_contract_witness :
  _extract_location
    (Demo.skill [] None "" (Some ["what time"; Demo.optional_location]%string))
    "what time is it in paris" =
  ([LogDebug "Found location in utterance: paris"], Returned (Some "paris"%string)).
Proof.
  apply (extract_location_contract
           (Demo.skill [] None "" (Some ["what time"; Demo.optional_location]%string))
           "what time is it in paris").
  - intros p e Hin Hs. simpl in Hin.
    destruct Hin as [<-|[<-|[]]]; vm_compute in Hs; discriminate Hs.
  - intros p m Hin Hs. simpl in Hin.
    destruct Hin as [<-|[<-|[]]]; vm_compute in Hs; injection Hs as <-;
      discriminate.
Defined.

(** A pattern is passed over: it compiles, and it does not match or its
    match has no group "Location". *)
Lemma first_declared_passed (h : host) (utterance : string) (q : string)
    (rest : list string) :
  re_search h q utterance = Returned None \/
  (exists m, re_search h q utterance = Returned (Some m) /\
             group_Location m = NoSuchGroup) ->
  first_declared h utterance (q :: rest) = first_declared h utterance rest.
Proof.
  simpl. intros [-> | (m & -> & Hg)]; [reflexivity|].
  destruct m as [g]. simpl in Hg. rewrite Hg. reflexivity.
Qed.

(** The pattern that decides the extraction, located in the list. *)
Lemma first_declared_located (h : host) (utterance : string)
    (patterns : list string) (d : outcome (option string)) :
  first_declared h utterance patterns = Some d <->
  exists pre p post,
    patterns = pre ++ p :: post /\
    Forall (fun q => re_search h q utterance = Returned None \/
                     exists m, re_search h q utterance = Returned (Some m) /\
                               group_Location m = NoSuchGroup) pre /\
    first_declared h utterance [p] = Some d.
Proof.
  induction patterns as [|q rest IH].
  - split; [discriminate|].
    intros (pre & p & post & H & _). destruct pre; discriminate H.
  - split.
    + intros H.
      destruct (first_declared h utterance [q]) as [d'|] eqn:Eq.
      * exists [], q, rest. split; [reflexivity|]. split; [constructor|].
        rewrite <- H. simpl in Eq |- *.
        destruct (re_search h q utterance) as [[[[|v]]|]|e];
          try discriminate Eq; reflexivity.
      * assert (Hq : re_search h q utterance = Returned None \/
                     exists m, re_search h q utterance = Returned (Some m) /\
                               group_Location m = NoSuchGroup).
        { simpl in Eq.
          destruct (re_search h q utterance) as [[[[|v]]|]|e];
            try discriminate Eq.
          - right. eexists. split; reflexivity.
          - left. reflexivity. }
        rewrite (first_declared_passed _ _ _ _ Hq) in H.
        apply IH in H. destruct H as (pre & p & post & -> & Hpre & Hp).
        exists (q :: pre), p, post. split; [reflexivity|].
        split; [constructor; assumption|exact Hp].
    + intros (pre & p & post & Hl & Hpre & Hp).
      destruct pre as [|q' pre'].
      * simpl in Hl. injection Hl as -> ->. simpl in Hp |- *.
        destruct (re_search h p utterance) as [[[[|v]]|]|e];
          try discriminate Hp; exact Hp.
      * simpl in Hl. injection Hl as -> ->.
        rewrite (first_declared_passed _ _ _ _ (List.Forall_inv Hpre)).
        apply IH. exists pre', p, post. split; [reflexivity|].
        split; [exact (List.Forall_inv_tail Hpre)|exact Hp].
Qed.

(** X10: [_extract_location] raises exactly when, after patterns that
    compile and either do not match or have no group "Location", comes a
    pattern on which [re.search] raises (that exception reaches the
    caller) or a pattern that matches with its group "Location" unset
    (the exception is then a [TypeError]). *)
Theorem extract_location_raises_iff (h : host) (utterance : string) (e : exn) :
  result (_extract_location h utterance) = Raised e <->
  exists pre p post,
    _get_location_patterns h = pre ++ p :: post /\
    Forall (fun q => re_search h q utterance = Returned None \/
                     exists m, re_search h q utterance = Returned (Some m) /\
                               group_Location m = NoSuchGroup) pre /\
    (re_search h p utterance = Raised e \/
     e = TypeError /\
     exists m, re_search h p utterance = Returned (Some m) /\
               group_Location m = GroupValue None).
Proof.
  unfold _extract_location. rewrite extract_loop_declared.
  assert (Hone : forall p,
            (first_declared h utterance [p] = Some (Raised e) \/
             e = TypeError /\
             first_declared h utterance [p] = Some (Returned None)) <->
            (re_search h p utterance = Raised e \/
             e = TypeError /\
             exists m, re_search h p utterance = Returned (Some m) /\
                       group_Location m = GroupValue None)).
  { intros p. simpl.
    destruct (re_search h p utterance) as [[[[|[s|]]]|]|e'].
    - split; intros [H|[_ H]]; try discriminate H.
      destruct H as (m & [= <-] & H). discriminate H.
    - split; intros [H|[_ H]]; try discriminate H.
      destruct H as (m & [= <-] & H). discriminate H.
    - split.
      + intros [H|[-> _]]; [discriminate H|].
        right. split; [reflexivity|]. eexists. split; reflexivity.
      + intros [H|[-> _]]; [discriminate H|]. right. split; reflexivity.
    - split; intros [H|[_ H]]; try discriminate H.
      destruct H as (m & H & _). discriminate H.
    - split.
      + intros [[= ->]|[_ H]]; [left; reflexivity|discriminate H].
      + intros [[= ->]|[_ (m & H & _)]]; [left; reflexivity|discriminate H]. }
  split.
  - intros H.
    destruct (first_declared h utterance (_get_location_patterns h))
      as [[[s|]|e']|] eqn:Ed; try discriminate H.
    + injection H as <-.
      apply first_declared_located in Ed.
      destruct Ed as (pre & p & post & Hl & Hpre & Hp).
      exists pre, p, post. split; [exact Hl|]. split; [exact Hpre|].
      apply Hone. right. split; [reflexivity|exact Hp].
    + injection H as ->.
      apply first_declared_located in Ed.
      destruct Ed as (pre & p & post & Hl & Hpre & Hp).
      exists pre, p, post. split; [exact Hl|]. split; [exact Hpre|].
      apply Hone. left. exact Hp.
  - intros (pre & p & post & Hl & Hpre & Hp).
    apply Hone in Hp. destruct Hp as [Hp|[-> Hp]].
    + rewrite (proj2 (first_declared_located h utterance _ (Raised e)));
        [reflexivity|].
      exists pre, p, post. auto.
    + rewrite (proj2 (first_declared_located h utterance _ (Returned None)));
        [reflexivity|].
      exists pre, p, post. auto.
Qed.

(** A record of [location.rx] that does not compile stops the
    extraction, even for an utterance that a later pattern would
    capture. *)
Example extract_location_invalid_pattern :
  _extract_location
    (Demo.skill [] None "" (Some ["in ("; Demo.optional_location]%string))
    "what time is it in paris" = ([], Raised (OtherError "re.error")).
Proof. vm_compute. reflexivity. Qed.

(** ** The speakable name *)

Lemma chars_append (a b : string) : chars (String.append a b) = chars a ++ chars b.
Proof.
  unfold chars. induction a as [|c a IH]; simpl; [reflexivity|].
  rewrite IH. reflexivity.
Qed.

Lemma join_chars (sep : string) (parts : list string) (c : ascii) :
  In c (chars (PyStr.join sep parts)) ->
  In c (chars sep) \/ exists p, In p parts /\ In c (chars p).
Proof.
  induction parts as [|p rest IH]; [intros []|].
  destruct rest as [|q rest'].
  - simpl. intros H. right. exists p. auto.
  - change (PyStr.join sep (p :: q :: rest'))
      with (String.append p (String.append sep (PyStr.join sep (q :: rest')))).
    rewrite !chars_append. intros H.
    apply in_app_or in H. destruct H as [H|H].
    + right. exists p. split; [left; reflexivity|exact H].
    + apply in_app_or in H. destruct H as [H|H]; [left; exact H|].
      destruct (IH H) as [H'|(p' & Hp' & Hc)]; [left; exact H'|].
      right. exists p'. split; [right; exact Hp'|exact Hc].
Qed.

Lemma split_chars (sep : ascii) (s : string) :
  forall p c, In p (PyStr.split sep s) -> In c (chars p) ->
              In c (chars s) /\ c <> sep.
Proof.
  induction s as [|a r IH]; intros p c Hp Hc.
  - simpl in Hp. destruct Hp as [<-|[]]. destruct Hc.
  - simpl in Hp. destruct (Ascii.eqb a sep) eqn:E.
    + destruct Hp as [<-|Hp]; [destruct Hc|].
      destruct (IH p c Hp Hc) as [H1 H2]. split; [right; exact H1|exact H2].
    + apply Ascii.eqb_neq in E.
      destruct (PyStr.split sep r) as [|w ws] eqn:Es.
      * destruct Hp as [<-|[]]. destruct Hc as [<-|[]].
        split; [left; reflexivity|exact E].
      * destruct Hp as [<-|Hp].
        -- destruct Hc as [<-|Hc]; [split; [left; reflexivity|exact E]|].
           destruct (IH w c (or_introl eq_refl) Hc) as [H1 H2].
           split; [right; exact H1|exact H2].
        -- destruct (IH p c (or_intror Hp) Hc) as [H1 H2].
           split; [right; exact H1|exact H2].
Qed.

Lemma replace_chars (old new : ascii) (s : string) (c : ascii) :
  In c (chars (PyStr.replace old new s)) ->
  (c = new \/ In c (chars s)) /\ (old <> new -> c <> old).
Proof.
  induction s as [|a r IH]; [intros []|].
  simpl. intros [H|H].
  - destruct (Ascii.eqb a old) eqn:E.
    + subst c. split; [left; reflexivity|]. intros Hne Heq. congruence.
    + apply Ascii.eqb_neq in E. subst c.
      split; [right; left; reflexivity|]. intros _. exact E.
  - destruct (IH H) as [[H1|H1] H2]; split; auto; right; right; exact H1.
Qed.

Lemma sub_camel_chars_bounded (n : nat) :
  forall s c, (String.length s <= n)%nat ->
              In c (chars (PyStr.sub_camel s)) ->
              c = " "%char \/ In c (chars s).
Proof.
  induction n as [|n IH]; intros s c Hlen Hc.
  - destruct s; [destruct Hc|simpl in Hlen; lia].
  - destruct s as [|c1 [|c2 r]].
    + destruct Hc.
    + right. exact Hc.
    + simpl in Hc. simpl in Hlen.
      destruct (PyStr.is_lower c1 && PyStr.is_upper c2)%bool.
      * destruct Hc as [<-|[<-|[<-|Hc]]].
        -- right. left. reflexivity.
        -- left. reflexivity.
        -- right. right. left. reflexivity.
        -- destruct (IH r c ltac:(lia) Hc) as [H|H]; [left; exact H|].
           right. right. right. exact H.
      * destruct Hc as [<-|Hc]; [right; left; reflexivity|].
        destruct (IH (String c2 r) c ltac:(simpl; lia) Hc) as [H|H];
          [left; exact H|].
        right. right. exact H.
Qed.

(** X11: the speakable form of an identifier contains neither "/" nor
    "_", and each of its characters is a space or a character of the
    identifier: nothing is added but spaces. *)
Theorem speakable_characters (name : string) (c : ascii) :
  In c (chars (speakable name)) ->
  c <> "/"%char /\ c <> "_"%char /\ (c = " "%char \/ In c (chars name)).
Proof.
  unfold speakable. intros H.
  apply join_chars in H. destruct H as [H|(p & Hp & Hc)].
  - destruct H as [<-|[]]. repeat split; try discriminate. left. reflexivity.
  - apply List.in_rev in Hp.
    destruct (split_chars _ _ p c Hp Hc) as [Hin Hsep].
    destruct (replace_chars _ _ _ c Hin) as [Hor Hold].
    split; [exact Hsep|]. split; [apply Hold; discriminate|].
    destruct Hor as [->|Hsub]; [left; reflexivity|].
    exact (sub_camel_chars_bounded _ _ c (le_n _) Hsub).
Qed.

Lemma speakable_characters_witness :
  "S"%char <> "/"%char /\ "S"%char <> "_"%char /\
  ("S"%char = " "%char \/ In "S"%char (chars "Australia/Sydney")).
Proof.
  apply (speakable_characters "Australia/Sydney" "S"%char).
  vm_compute. tauto.
Defined.

(** ** More on leap years *)

Lemma get_next_leap_year_spec (year : Z) :
  year < get_next_leap_year year /\
  is_leap_year (get_next_leap_year year) = true /\
  (forall y, year < y < get_next_leap_year year -> is_leap_year y = false).
Proof.
  destruct (depth_8_enough year) as [z Hz].
  destruct (depth_sound _ _ _ Hz) as (H1 & H2 & H3 & H4).
  subst z. repeat split; try assumption; lia.
Qed.

Lemma get_next_leap_year_unique (year z : Z) :
  year < z -> is_leap_year z = true ->
  (forall y, year < y < z -> is_leap_year y = false) ->
  get_next_leap_year year = z.
Proof.
  intros Hlt Hleap Hmin.
  destruct (get_next_leap_year_spec year) as (Hlt' & Hleap' & Hmin').
  destruct (Z.lt_trichotomy (get_next_leap_year year) z) as [H|[H|H]].
  - rewrite (Hmin (get_next_leap_year year)) in Hleap' by lia. discriminate.
  - exact H.
  - rewrite (Hmin' z) in Hleap by lia. discriminate.
Qed.

(** X12: [get_next_leap_year year] is [z] exactly when [z] is a leap
    year after [year] with no leap year strictly between them; so the
    year before a leap year is sent to that leap year. *)
Theorem get_next_leap_year_iff (year z : Z) :
  get_next_leap_year year = z <->
  (year < z /\ is_leap_year z = true /\
   forall y, year < y < z -> is_leap_year y = false).
Proof.
  split.
  - intros <-. apply get_next_leap_year_spec.
  - intros (H1 & H2 & H3). apply get_next_leap_year_unique; assumption.
Qed.

Lemma get_next_leap_year_iff_witness : get_next_leap_year 2099 = 2104.
Proof.
  apply (proj2 (get_next_leap_year_iff 2099 2104)).
  split; [lia|]. split; [vm_compute; reflexivity|].
  intros y Hy.
  assert (Hc : y = 2100 \/ y = 2101 \/ y = 2102 \/ y = 2103) by lia.
  destruct Hc as [-> | [-> | [-> | ->]]]; vm_compute; reflexivity.
Defined.

(** X13: [get_next_leap_year] is monotone. *)
Theorem get_next_leap_year_monotone (y1 y2 : Z) :
  y1 <= y2 -> get_next_leap_year y1 <= get_next_leap_year y2.
Proof.
  intros Hle.
  destruct (get_next_leap_year_spec y1) as (_ & _ & Hmin1).
  destruct (get_next_leap_year_spec y2) as (Hlt2 & Hleap2 & _).
  destruct (Z_lt_le_dec (get_next_leap_year y2) (get_next_leap_year y1))
    as [H|H]; [|exact H].
  rewrite (Hmin1 (get_next_leap_year y2)) in Hleap2 by lia. discriminate.
Qed.

Lemma get_next_leap_year_monotone_witness :
  get_next_leap_year 1896 <= get_next_leap_year 1903.
Proof. apply get_next_leap_year_monotone. lia. Defined.

(** X14: [get_next_leap_year] follows the 400-year cycle of the
    calendar: shifting the year by a multiple of 400 shifts the result by
    the same amount. *)
Theorem get_next_leap_year_cycle (year k : Z) :
  get_next_leap_year (year + 400 * k) = get_next_leap_year year + 400 * k.
Proof.
  destruct (get_next_leap_year_spec year) as (Hlt & Hleap & Hmin).
  apply get_next_leap_year_unique.
  - lia.
  - rewrite is_leap_year_shift. exact Hleap.
  - intros y Hy.
    replace y with (y - 400 * k + 400 * k) by lia.
    rewrite is_leap_year_shift. apply Hmin. lia.
Qed.

Lemma datetime_le_after_february (now : datetime) :
  3 <= dt_month now -> datetime_le now (leap_date now) = false.
Proof.
  intros H. unfold datetime_le, leap_date. simpl.
  rewrite Z.ltb_irrefl.
  destruct (dt_month now <? 2) eqn:E1; [apply Z.ltb_lt in E1; lia|].
  destruct (2 <? dt_month now) eqn:E2; [reflexivity|].
  apply Z.ltb_ge in E2. lia.
Qed.

(** X15: the year that the leap-year intent announces is a leap year
    later than the current year; from March on it is later than the next
    year as well, so the next year is not announced even when it is a
    leap year. *)
Theorem announced_leap_year (now : datetime) :
  is_leap_year (handle_query_next_leap_year now) = true /\
  dt_year now < handle_query_next_leap_year now /\
  (3 <= dt_month now -> dt_year now + 1 < handle_query_next_leap_year now).
Proof.
  unfold handle_query_next_leap_year.
  split; [apply get_next_leap_year_spec|]. split.
  - destruct (datetime_le now (leap_date now)).
    + apply get_next_leap_year_spec.
    + destruct (get_next_leap_year_spec (dt_year now + 1)) as (H & _). lia.
  - intros H. rewrite (datetime_le_after_february now H).
    apply get_next_leap_year_spec.
Qed.

Lemma announced_leap_year_witness :
  2023 + 1 <
  handle_query_next_leap_year
    {| dt_year := 2023; dt_month := 3; dt_day := 1; dt_hour := 9;
       dt_minute := 30; dt_second := 0; dt_microsecond := 0 |}.
Proof.
  apply (proj2 (proj2 (announced_leap_year
           {| dt_year := 2023; dt_month := 3; dt_day := 1; dt_hour := 9;
              dt_minute := 30; dt_second := 0; dt_microsecond := 0 |}))).
  simpl. lia.
Defined.

(** ** The Mark 1 display *)

Lemma count_glyphs_total (display_time : string) :
  forall digits colons others,
    count_glyphs display_time = (digits, colons, others) ->
    0 <= digits /\ 0 <= colons /\ 0 <= others /\
    digits + colons + others = Z.of_nat (String.length display_time).
Proof.
  induction display_time as [|c rest IH]; intros d k u H.
  - injection H as <- <- <-. simpl. lia.
  - simpl in H. destruct (count_glyphs rest) as [[d' k'] u'].
    specialize (IH d' k' u' eq_refl).
    destruct (mark_1_display_codes !! String c EmptyString).
    + destruct (Ascii.eqb c ":"); injection H as <- <- <-;
        simpl String.length; lia.
    + injection H as <- <- <-. simpl String.length. lia.
Qed.

Lemma center_loop_final (display_time : string) :
  forall x digits colons others,
    count_glyphs display_time = (digits, colons, others) ->
    (snd (center_loop display_time x) ==
     x + 4 * inject_Z digits + 2 * inject_Z colons)%Q.
Proof.
  induction display_time as [|c rest IH]; intros x d k u H.
  - injection H as <- <- <-. simpl. unfold inject_Z. lra.
  - simpl in H. simpl center_loop.
    destruct (count_glyphs rest) as [[d' k'] u'].
    destruct (mark_1_display_codes !! String c EmptyString).
    + destruct (Ascii.eqb c ":").
      * specialize (IH (x + inject_Z MARK_1_COLON_WIDTH)%Q d' k' u' eq_refl).
        destruct (center_loop rest (x + inject_Z MARK_1_COLON_WIDTH)%Q)
          as [calls final].
        injection H as <- <- <-. simpl snd in *. rewrite IH.
        rewrite inject_Z_plus. unfold MARK_1_COLON_WIDTH, inject_Z. lra.
      * specialize (IH (x + inject_Z MARK_1_NUMBER_WIDTH)%Q d' k' u' eq_refl).
        destruct (center_loop rest (x + inject_Z MARK_1_NUMBER_WIDTH)%Q)
          as [calls final].
        injection H as <- <- <-. simpl snd in *. rewrite IH.
        rewrite inject_Z_plus. unfold MARK_1_NUMBER_WIDTH, inject_Z. lra.
    + injection H as <- <- <-. apply (IH x d' k' u' eq_refl).
Qed.

Lemma center_loop_length (display_time : string) :
  forall x digits colons others,
    count_glyphs display_time = (digits, colons, others) ->
    Z.of_nat (length (fst (center_loop display_time x))) = digits + colons.
Proof.
  induction display_time as [|c rest IH]; intros x d k u H.
  - injection H as <- <- <-. reflexivity.
  - simpl in H. simpl center_loop.
    destruct (count_glyphs rest) as [[d' k'] u'].
    destruct (mark_1_display_codes !! String c EmptyString).
    + destruct (Ascii.eqb c ":").
      * specialize (IH (x + inject_Z MARK_1_COLON_WIDTH)%Q d' k' u' eq_refl).
        destruct (center_loop rest (x + inject_Z MARK_1_COLON_WIDTH)%Q)
          as [calls final].
        injection H as <- <- <-. simpl in *. lia.
      * specialize (IH (x + inject_Z MARK_1_NUMBER_WIDTH)%Q d' k' u' eq_refl).
        destruct (center_loop rest (x + inject_Z MARK_1_NUMBER_WIDTH)%Q)
          as [calls final].
        injection H as <- <- <-. simpl in *. lia.
    + injection H as <- <- <-. apply (IH x d' k' u' eq_refl).
Qed.

Lemma center_loop_monotone (display_time : string) :
  forall x, (x <= snd (center_loop display_time x))%Q.
Proof.
  induction display_time as [|c rest IH]; intros x; simpl; [apply Qle_refl|].
  destruct (mark_1_display_codes !! String c EmptyString); [|apply IH].
  destruct (Ascii.eqb c ":").
  - specialize (IH (x + inject_Z MARK_1_COLON_WIDTH)%Q).
    destruct (center_loop rest (x + inject_Z MARK_1_COLON_WIDTH)%Q).
    simpl snd in *. unfold MARK_1_COLON_WIDTH, inject_Z in IH. lra.
  - specialize (IH (x + inject_Z MARK_1_NUMBER_WIDTH)%Q).
    destruct (center_loop rest (x + inject_Z MARK_1_NUMBER_WIDTH)%Q).
    simpl snd in *. unfold MARK_1_NUMBER_WIDTH, inject_Z in IH. lra.
Qed.

(** Every glyph is drawn between the start offset and the final one,
    with room for the narrowest glyph. *)
Lemma center_loop_calls (display_time : string) :
  forall x img_code xc refresh,
    In (MouthDisplay img_code xc refresh) (fst (center_loop display_time x)) ->
    refresh = false /\ (x <= xc)%Q /\
    (xc + 2 <= snd (center_loop display_time x))%Q.
Proof.
  induction display_time as [|c rest IH]; intros x code xc r Hin;
    [destruct Hin|].
  simpl center_loop in *.
  destruct (mark_1_display_codes !! String c EmptyString);
    [|eapply IH; exact Hin].
  destruct (Ascii.eqb c ":").
  - assert (Hm := center_loop_monotone rest (x + inject_Z MARK_1_COLON_WIDTH)%Q).
    specialize (IH (x + inject_Z MARK_1_COLON_WIDTH)%Q code xc r).
    destruct (center_loop rest (x + inject_Z MARK_1_COLON_WIDTH)%Q)
      as [calls final].
    simpl fst in *. simpl snd in *.
    unfold MARK_1_COLON_WIDTH, inject_Z in *.
    destruct Hin as [[= <- <- <-]|Hin].
    + split; [reflexivity|]. split; lra.
    + destruct (IH Hin) as (H1 & H2 & H3). split; [exact H1|]. split; lra.
  - assert (Hm := center_loop_monotone rest (x + inject_Z MARK_1_NUMBER_WIDTH)%Q).
    specialize (IH (x + inject_Z MARK_1_NUMBER_WIDTH)%Q code xc r).
    destruct (center_loop rest (x + inject_Z MARK_1_NUMBER_WIDTH)%Q)
      as [calls final].
    simpl fst in *. simpl snd in *.
    unfold MARK_1_NUMBER_WIDTH, inject_Z in *.
    destruct Hin as [[= <- <- <-]|Hin].
    + split; [reflexivity|]. split; lra.
    + destruct (IH Hin) as (H1 & H2 & H3). split; [exact H1|]. split; lra.
Qed.

Lemma center_start_value (display_time : string) :
  (center_start display_time ==
   17 - 2 * inject_Z (Z.of_nat (String.length display_time)))%Q.
Proof.
  unfold center_start, MARK_1_DISPLAY_WIDTH, MARK_1_NUMBER_WIDTH,
    MARK_1_COLON_WIDTH.
  set (n := Z.of_nat (String.length display_time)).
  unfold Qdiv, Qeq, Qmult, Qminus, Qplus, Qopp, Qinv, inject_Z.
  cbn [Qnum Qden]. lia.
Qed.

Lemma center_loop_margins (display_time : string) (digits colons others : Z) :
  count_glyphs display_time = (digits, colons, others) ->
  (32 - snd (center_loop display_time (center_start display_time))
      - center_start display_time ==
   inject_Z (2 * (colons - 1) + 4 * others))%Q.
Proof.
  intros Hcount.
  destruct (count_glyphs_total _ _ _ _ Hcount) as (Hd & Hc & Hu & Hn).
  rewrite (center_loop_final display_time _ _ _ _ Hcount).
  rewrite (center_start_value display_time). rewrite <- Hn.
  unfold Qeq, Qminus, Qplus, Qmult, Qopp, inject_Z. simpl Qnum. simpl Qden.
  lia.
Qed.

Lemma center_loop_centred (display_time : string) (digits : Z) :
  count_glyphs display_time = (digits, 1, 0) ->
  (32 - snd (center_loop display_time (center_start display_time)) ==
   center_start display_time)%Q.
Proof.
  intros Hcount. assert (H := center_loop_margins _ _ _ _ Hcount).
  change (inject_Z (2 * (1 - 1) + 4 * 0)) with 0%Q in H. lra.
Qed.

(** X16: [_center_time_on_mark_1_display] draws one glyph for each
    character that has one (digits and the colon) and skips the others.
    The margin right of the last glyph exceeds the margin left of the
    first one by [2 * (colons - 1) + 4 * others]: the time is centred on
    the 32 columns exactly when it has one colon and no character without
    a glyph. *)
Theorem mark_1_margins (display_time : string) (digits colons others : Z) :
  count_glyphs display_time = (digits, colons, others) ->
  let left := center_start display_time in
  let final := snd (center_loop display_time left) in
  Z.of_nat (length (_center_time_on_mark_1_display display_time)) =
    digits + colons /\
  (32 - final - left == inject_Z (2 * (colons - 1) + 4 * others))%Q /\
  ((32 - final == left)%Q <-> colons = 1 /\ others = 0).
Proof.
  intros Hcount left final.
  destruct (count_glyphs_total _ _ _ _ Hcount) as (Hd & Hc & Hu & Hn).
  assert (Hdiff := center_loop_margins _ _ _ _ Hcount).
  fold left in Hdiff. fold final in Hdiff.
  split; [|split].
  - unfold _center_time_on_mark_1_display.
    exact (center_loop_length display_time left _ _ _ Hcount).
  - exact Hdiff.
  - split.
    + intros Heq.
      assert (Hz : (inject_Z (2 * (colons - 1) + 4 * others) == inject_Z 0)%Q).
      { rewrite <- Hdiff, Heq. unfold inject_Z. lra. }
      unfold Qeq, inject_Z in Hz. simpl in Hz. lia.
    + intros [-> ->].
      change (inject_Z (2 * (1 - 1) + 4 * 0)) with 0%Q in Hdiff. lra.
Qed.

Lemma mark_1_margins_witness :
  Z.of_nat (length (_center_time_on_mark_1_display "12:00")) = 4 + 1 /\
  (32 - snd (center_loop "12:00" (center_start "12:00")) ==
   center_start "12:00")%Q /\
  ~ (32 - snd (center_loop "1:00 AM" (center_start "1:00 AM")) ==
     center_start "1:00 AM")%Q.
Proof.
  split; [|split].
  - apply (mark_1_margins "12:00" 4 1 0). vm_compute. reflexivity.
  - apply (proj2 (proj2 (mark_1_margins "12:00" 4 1 0 eq_refl))).
    split; reflexivity.
  - intros H.
    apply (proj1 (proj2 (proj2 (mark_1_margins "1:00 AM" 3 1 3 eq_refl)))) in H.
    destruct H as [_ H]. discriminate H.
Defined.

(** X17: for a time of at most eight characters, all digits but for
    one colon, every call that [_display_time_on_mark_1] makes has
    [refresh=False] and an [x] on the display, with at least two columns
    to its right. *)
Theorem mark_1_in_bounds (alarm_is_set : bool) (display_time : string)
    (digits : Z) :
  count_glyphs display_time = (digits, 1, 0) ->
  (String.length display_time <= 8)%nat ->
  forall img_code x refresh,
    In (MouthDisplay img_code x refresh)
       (_display_time_on_mark_1 alarm_is_set display_time) ->
    refresh = false /\ (0 <= x)%Q /\ (x + 2 <= 32)%Q.
Proof.
  intros Hcount Hlen code x r Hin.
  unfold _display_time_on_mark_1 in Hin.
  apply in_app_or in Hin. destruct Hin as [Hin|Hin].
  - unfold _clear_mark_1_display in Hin.
    destruct (Nat.eqb (String.length display_time) 4);
      destruct Hin as [[= <- <- <-]|[[= <- <- <-]|[]]];
      (split; [reflexivity|]); unfold inject_Z; split; lra.
  - apply in_app_or in Hin. destruct Hin as [Hin|Hin].
    + unfold _center_time_on_mark_1_display in Hin.
      destruct (center_loop_calls _ _ _ _ _ Hin) as (Hr & Hlo & Hhi).
      assert (Hcentred := center_loop_centred display_time digits Hcount).
      assert (Hleft := center_start_value display_time).
      assert (Hn : (inject_Z (Z.of_nat (String.length display_time)) <= 8)%Q).
      { change 8%Q with (inject_Z 8). rewrite <- Zle_Qle. lia. }
      split; [exact Hr|]. split; lra.
    + unfold _show_mark_1_alarm_indicator in Hin.
      destruct Hin as [[= <- <- <-]|[]].
      split; [reflexivity|]. split; lra.
Qed.

Lemma mark_1_in_bounds_witness :
  false = false /\ (0 <= 30 # 2)%Q /\ ((30 # 2) + 2 <= 32)%Q.
Proof.
  apply (mark_1_in_bounds true "12:00" 4 eq_refl ltac:(simpl; lia)
           "CIICAA"%string (30 # 2)%Q false).
  vm_compute. tauto.
Defined.

(** ** The deprecated date helpers *)

Lemma get_timezone_never_speaks (h : host) (locale : string) :
  List.filter is_speak (trace (get_timezone h locale)) = [].
Proof.
  destruct (get_timezone_trace h locale) as [->|[->|(best & ->)]];
    [reflexivity|reflexivity|].
  cbn [List.filter is_speak]. rewrite List.filter_app.
  rewrite filter_fuzzy_events by reflexivity.
  destruct (decide_best_trace h best) as [->|(name & ->)]; reflexivity.
Qed.

(** X18: whenever [get_local_datetime] returns, it has spoken the
    not-found notification, once and naming the location it was given,
    if the result is [None], and has spoken nothing otherwise. *)
Theorem get_local_datetime_notification (f : framework) (h : host)
    (display_tz : option tzinfo) (location : option string)
    (dtUTC r : option moment) :
  result (get_local_datetime f h display_tz location dtUTC) = Returned r ->
  List.filter is_speak (trace (get_local_datetime f h display_tz location dtUTC)) =
    match r with
    | None => [SpeakDialog "time.tz.not.found" location]
    | Some _ => []
    end.
Proof.
  unfold get_local_datetime.
  assert (Hhome := get_timezone_never_speaks h (location_timezone f)).
  set (home := match display_tz with
               | Some tz => mret (Some tz)
               | None => get_timezone h (location_timezone f)
               end).
  assert (Hh : List.filter is_speak (trace home) = []).
  { unfold home. destruct display_tz; [reflexivity|exact Hhome]. }
  destruct home as [t1 [tz1|e1]]; [|discriminate].
  rewrite trace_pair in Hh. rewrite bind_returned.
  set (loc := match location with
              | Some name =>
                  if String.eqb name EmptyString then mret tz1
                  else get_timezone h name
              | None => mret tz1
              end).
  assert (Hl : List.filter is_speak (trace loc) = []).
  { unfold loc. destruct location as [name|]; [|reflexivity].
    destruct (String.eqb name EmptyString); [reflexivity|].
    apply get_timezone_never_speaks. }
  destruct loc as [t2 [tz2|e2]].
  - rewrite trace_pair in Hl. rewrite bind_returned, !trace_pair, !result_pair.
    rewrite !List.filter_app, Hh, Hl.
    destruct tz2 as [tz|]; intros [= <-]; reflexivity.
  - rewrite bind_raised, !result_pair. discriminate.
Qed.

Lemma get_local_datetime_notification_witness :
  List.filter is_speak
    (trace (get_local_datetime (demo_framework "America/Chicago") Demo.plain
              None (Some "qqq"%string) None)) =
  [SpeakDialog "time.tz.not.found" (Some "qqq"%string)].
Proof.
  apply (get_local_datetime_notification (demo_framework "America/Chicago")
           Demo.plain None (Some "qqq"%string) None None).
  vm_compute. reflexivity.
Defined.

(** X19: when the timezone cannot be resolved, the date helpers that
    are given no day ([get_display_date], [get_weekday],
    [get_month_date], [get_year]) raise [AttributeError], calling
    [strftime] on [None], whereas [get_display_current_time] returns
    [None]. *)
Theorem date_helpers_without_timezone (f : framework) (h : host)
    (display_tz : option tzinfo) (location : option string) :
  result (get_local_datetime f h display_tz location None) = Returned None ->
  result (get_display_date f h display_tz None location) =
    Raised (OtherError "AttributeError") /\
  result (get_weekday f h display_tz None location) =
    Raised (OtherError "AttributeError") /\
  result (get_month_date f h display_tz None location) =
    Raised (OtherError "AttributeError") /\
  result (get_year f h display_tz None location) =
    Raised (OtherError "AttributeError") /\
  result (get_display_current_time f h display_tz location None) =
    Returned None.
Proof.
  intros H.
  unfold get_display_date, get_weekday, get_month_date, get_year,
    get_display_current_time, day_or_local.
  destruct (get_local_datetime f h display_tz location None) as [t [r|e]];
    [|discriminate H].
  rewrite result_pair in H. injection H as ->.
  rewrite !bind_returned, !result_pair.
  destruct (decide (date_format f = Some "MDY"%string)); repeat split.
Qed.

Lemma date_helpers_without_timezone_witness :
  result (get_display_date (demo_framework "Nowhere/AtAll") Demo.plain
            None None None) = Raised (OtherError "AttributeError") /\
  result (get_display_current_time (demo_framework "Nowhere/AtAll") Demo.plain
            None None None) = Returned None.
Proof.
  destruct (date_helpers_without_timezone (demo_framework "Nowhere/AtAll")
              Demo.plain None None ltac:(vm_compute; reflexivity))
    as (H1 & _ & _ & _ & H5).
  split; [exact H1|exact H5].
Defined.

(** X20: with no display timezone set, [get_local_datetime] resolves
    the home timezone first, even when a location is given: an exception
    of that lookup ends the call before the location is looked at. *)
Theorem home_lookup_runs_first (f : framework) (h : host) (e : exn) :
  result (get_timezone h (location_timezone f)) = Raised e ->
  forall location dtUTC,
    get_local_datetime f h None location dtUTC =
    (trace (get_timezone h (location_timezone f)), Raised e).
Proof.
  intros H location dtUTC. unfold get_local_datetime.
  destruct (get_timezone h (location_timezone f)) as [t [r|e']];
    [discriminate H|].
  rewrite result_pair in H. injection H as ->. reflexivity.
Qed.

Lemma home_lookup_runs_first_witness :
  get_local_datetime (demo_framework "China")
    (Demo.skill Demo.china_table None "" None) None (Some "sydney"%string) None =
  ([TranslateNamedvalues "timezone.value"], Raised UnknownTimeZoneError).
Proof.
  apply (home_lookup_runs_first (demo_framework "China")
           (Demo.skill Demo.china_table None "" None) UnknownTimeZoneError).
  vm_compute. reflexivity.
Defined.

Lemma get_timezone_comparisons_bounded_witness :
  "sydney"%string = PyStr.lower "Sydney".
Proof.
  apply (proj2 (get_timezone_comparisons_bounded Demo.plain "Sydney")
           "australia sydney"%string "sydney"%string).
  vm_compute. repeat (first [left; reflexivity | right]).
Defined.
